(** * HabitCraft shared types: the pydantic models of [shared/types/models.py]

    The module declares the request and response records of the HabitCraft
    API as pydantic models.  Two of them carry hand-written validators
    ([HabitInput.validate_color] and [HabitInput.validate_target_days]); the
    rest constrain their fields through annotations and [Field] arguments.

    The development embeds the models as functions from an input mapping
    (the keyword arguments of the constructor, or a parsed JSON object) to
    either a record or a list of located errors, and proves the properties
    the specification states about them. *)

From Stdlib Require Import ZArith NArith Ascii.
From Stdlib Require Import Floats.SpecFloat.
From stdpp Require Import gmap strings list fin_maps.

Local Open Scope Z_scope.
Set Warnings "-register-all".

(* ===================================================================== *)
(** ** Python values *)
(* ===================================================================== *)

(** A Python [str] is a sequence of Unicode code points; [len] and the
    [min_length]/[max_length] constraints count code points, not bytes. *)
Definition pystr : Type := list N.

(** [ord] of an ASCII character. *)
Definition ord (a : ascii) : N := N_of_ascii a.

(** An ASCII literal of the source as a Python string. *)
Definition py (s : string) : pystr := ord <$> String.list_ascii_of_string s.

(** [datetime.date] and [datetime.datetime] instances.  The models only
    store them. *)
Record py_date : Type := mk_date {
  year : Z;
  month : Z;
  day : Z
}.

Record py_datetime : Type := mk_datetime {
  dt_date : py_date;
  hour : Z;
  minute : Z;
  second : Z;
  microsecond : Z;
  utcoffset : option Z
}.

(** The values a constructor can be handed for a field. *)
Inductive raw : Type :=
| PyNone
| PyBool (b : bool)
| PyInt (z : Z)
| PyFloat (f : spec_float)
| PyStr (s : pystr)
| PyList (l : list raw)
| PyDict (d : gmap string raw)
| PyDate (d : py_date)
| PyDateTime (t : py_datetime).

(** The keyword arguments of a model constructor. *)
Abbreviation input := (gmap string raw).

(** Truthiness of the two kinds of value the validators test with [if v]. *)
Definition truthy_str (v : option pystr) : bool :=
  match v with
  | Some (_ :: _) => true
  | _ => false
  end.

Definition truthy_list {A : Type} (v : option (list A)) : bool :=
  match v with
  | Some (_ :: _) => true
  | _ => false
  end.

(** [isinstance(x, int)]: [bool] is a subclass of [int]. *)
Definition isinstance_int (x : raw) : bool :=
  match x with
  | PyInt _ | PyBool _ => true
  | _ => false
  end.

(** The integer an [int] instance compares as. *)
Definition int_value (x : raw) : option Z :=
  match x with
  | PyInt z => Some z
  | PyBool b => Some (Z.b2z b)
  | _ => None
  end.

(* ===================================================================== *)
(** ** The fragment of [re] the source uses *)
(* ===================================================================== *)

(** The pattern [^#[0-9A-Fa-f]{6}$] is a sequence of anchors, one literal
    and six copies of one character class. *)
Inductive re_item : Type :=
| Bol
| Eol
| Lit (c : N)
| Cls (ranges : list (N * N)).

Definition regex : Type := list re_item.

Definition in_class (ranges : list (N * N)) (c : N) : bool :=
  existsb (fun r => (fst r <=? c)%N && (c <=? snd r)%N) ranges.

(** Without [re.MULTILINE], [$] matches at the end of the string and just
    before a newline that ends the string. *)
Definition at_eol (s : pystr) : bool :=
  match s with
  | [] => true
  | [c] => (c =? 10)%N
  | _ => false
  end.

(** Matching [r] against the rest [s] of the subject; [at_start] tells
    whether [s] is the whole subject. *)
Fixpoint match_here (r : regex) (at_start : bool) (s : pystr) : bool :=
  match r with
  | [] => true
  | Bol :: r' => at_start && match_here r' at_start s
  | Eol :: r' => at_eol s && match_here r' at_start s
  | Lit c :: r' =>
      match s with
      | x :: s' => (x =? c)%N && match_here r' false s'
      | [] => false
      end
  | Cls rs :: r' =>
      match s with
      | x :: s' => in_class rs x && match_here r' false s'
      | [] => false
      end
  end.

(** [re.match(r, s)] as a truth value: the pattern is tried at position 0
    only and need not consume the whole subject. *)
Definition re_match (r : regex) (s : pystr) : bool := match_here r true s.

Definition hex_digit : re_item :=
  Cls [(ord "0", ord "9"); (ord "A", ord "F"); (ord "a", ord "f")].

(** [r'^#[0-9A-Fa-f]{6}$'] *)
Definition hex_color_re : regex :=
  [Bol; Lit (ord "#")] ++ replicate 6 hex_digit ++ [Eol].

(* ===================================================================== *)
(** ** Validation results *)
(* ===================================================================== *)

(** One component of the location pydantic attaches to an error: a field
    name or a position in a list. *)
Inductive loc_item : Type :=
| Key (k : string)
| Idx (i : nat).

(** Why a value was refused.  [ValueErr] carries the message of a
    [ValueError] raised by a validator of the source. *)
Inductive reason : Type :=
| Missing
| StringType
| StringTooShort (min_length : nat)
| StringTooLong (max_length : nat)
| IntType
| FloatType
| ListType
| LiteralError
| DateType
| DatetimeType
| EmailError
| ModelType
| ValueErr (msg : string).

Definition error : Type := list loc_item * reason.

(** A [ValidationError] is the list of every error found; a constructor
    returns the record or raises the error, never both. *)
Inductive validation (A : Type) : Type :=
| Valid (a : A)
| Invalid (errs : list error).

Arguments Valid {A} a.
Arguments Invalid {A} errs.

Definition fail {A : Type} (r : reason) : validation A := Invalid [([], r)].

Definition vmap {A B : Type} (f : A → B) (x : validation A) : validation B :=
  match x with
  | Valid a => Valid (f a)
  | Invalid e => Invalid e
  end.

(** Fields are validated one after the other and the errors of all of them
    are kept. *)
Definition vap {A B : Type} (f : validation (A → B)) (x : validation A)
  : validation B :=
  match f, x with
  | Valid g, Valid a => Valid (g a)
  | Valid _, Invalid e => Invalid e
  | Invalid e, Valid _ => Invalid e
  | Invalid e1, Invalid e2 => Invalid (e1 ++ e2)
  end.

Infix "<*>" := vap (at level 61, left associativity).

(** Prefix the location of every error with [i]. *)
Definition under {A : Type} (i : loc_item) (x : validation A) : validation A :=
  match x with
  | Valid a => Valid a
  | Invalid e => Invalid (prod_map (cons i) id <$> e)
  end.

Definition errors_of {A : Type} (x : validation A) : list error :=
  match x with
  | Valid _ => []
  | Invalid e => e
  end.

Definition is_valid {A : Type} (x : validation A) : bool :=
  match x with
  | Valid _ => true
  | Invalid _ => false
  end.

(** A validator of the source either returns a value or raises
    [ValueError]; pydantic turns the exception into an error of the field. *)
Definition after {A : Type} (x : validation A) (f : A → string + A)
  : validation A :=
  match x with
  | Valid a =>
      match f a with
      | inl msg => fail (ValueErr msg)
      | inr a' => Valid a'
      end
  | Invalid e => Invalid e
  end.

(* ===================================================================== *)
(** ** The type layer of pydantic *)
(* ===================================================================== *)

(** The models are validated in pydantic's default (lax) mode; the [Config]
    key [from_attributes] is the one of pydantic 2.  A field is looked up in
    the input, its value is converted to the annotated type, and then the
    validators declared with [@validator] (none of them is [pre=True]) run
    on the converted value.

    Conversions of the library that are not written out here: the address
    check behind [EmailStr], and what the lax mode accepts for [int],
    [float], [date] and [datetime] besides an instance of the type and a
    plain decimal string.  Every statement below holds whatever these
    functions return. *)
Class External : Type := {
  validate_email : pystr → option pystr;
  int_lax : raw → option Z;
  float_lax : raw → option spec_float;
  date_lax : raw → option py_date;
  datetime_lax : raw → option py_datetime
}.

Definition of_option {A : Type} (r : reason) (o : option A) : validation A :=
  match o with
  | Some a => Valid a
  | None => fail r
  end.

(** The value of a string of ASCII digits, [None] when another character
    occurs. *)
Fixpoint digits_value (acc : Z) (s : pystr) : option Z :=
  match s with
  | [] => Some acc
  | c :: s' =>
      if (ord "0" <=? c)%N && (c <=? ord "9")%N
      then digits_value (10 * acc + Z.of_N (c - ord "0")) s'
      else None
  end.

(** A non-empty string of at most 18 digits always fits the machine
    integer the library parses first. *)
Definition decimal_literal (s : pystr) : option Z :=
  match s with
  | [] => None
  | _ => if (length s <=? 18)%nat then digits_value 0 s else None
  end.

Section TypeLayer.
Context `{External}.

(** [str], with the [min_length] and [max_length] of its [Field]. *)
Definition str_type (min_length max_length : option nat) (v : raw)
  : validation pystr :=
  match v with
  | PyStr s =>
      if from_option (λ n, length s <? n)%nat false min_length
      then fail (StringTooShort (default 0%nat min_length))
      else if from_option (λ n, n <? length s)%nat false max_length
      then fail (StringTooLong (default 0%nat max_length))
      else Valid s
  | _ => fail StringType
  end.

(** [int]: an [int] instance is kept; a decimal string is read; the other
    lax conversions are the library's. *)
Definition int_type (v : raw) : validation Z :=
  match v with
  | PyInt z => Valid z
  | PyStr s =>
      match decimal_literal s with
      | Some z => Valid z
      | None => of_option IntType (int_lax v)
      end
  | _ => of_option IntType (int_lax v)
  end.

(** [float]: infinities and NaN are allowed by default. *)
Definition float_type (v : raw) : validation spec_float :=
  match v with
  | PyFloat f => Valid f
  | _ => of_option FloatType (float_lax v)
  end.

Definition date_type (v : raw) : validation py_date :=
  match v with
  | PyDate d => Valid d
  | _ => of_option DateType (date_lax v)
  end.

Definition datetime_type (v : raw) : validation py_datetime :=
  match v with
  | PyDateTime t => Valid t
  | _ => of_option DatetimeType (datetime_lax v)
  end.

(** [EmailStr]: a string that the address check accepts; the stored value
    is the one the check returns. *)
Definition email_type (v : raw) : validation pystr :=
  match v with
  | PyStr s => of_option EmailError (validate_email s)
  | _ => fail StringType
  end.

End TypeLayer.

(** [Optional[T]]: [None] is accepted as it is. *)
Definition optional {A : Type} (c : raw → validation A) (v : raw)
  : validation (option A) :=
  match v with
  | PyNone => Valid None
  | _ => vmap Some (c v)
  end.

(** The items of a list from position [i] on: every item is validated and
    the errors of all of them are kept, each under its position. *)
Fixpoint items_from {A : Type} (c : raw → validation A) (i : nat) (l : list raw)
  : validation (list A) :=
  match l with
  | [] => Valid []
  | x :: l' => Valid cons <*> under (Idx i) (c x) <*> items_from c (S i) l'
  end.

(** [List[T]] *)
Definition list_type {A : Type} (c : raw → validation A) (v : raw)
  : validation (list A) :=
  match v with
  | PyList l => items_from c 0 l
  | _ => fail ListType
  end.

(** [Literal[...]]: the input must be one of the listed strings. *)
Definition literal_type {A : Type} (table : list (pystr * A)) (v : raw)
  : validation A :=
  match v with
  | PyStr s =>
      match list_find (λ e, bool_decide (fst e = s)) table with
      | Some (_, (_, a)) => Valid a
      | None => fail LiteralError
      end
  | _ => fail LiteralError
  end.

(** A required field ([...] or no default). *)
Definition required {A : Type} (name : string) (c : raw → validation A)
  (m : input) : validation A :=
  match m !! name with
  | Some v => under (Key name) (c v)
  | None => Invalid [([Key name], Missing)]
  end.

(** A field with a default: the default is used when the key is absent and
    is not validated. *)
Definition defaulted {A : Type} (name : string) (d : A)
  (c : raw → validation A) (m : input) : validation A :=
  match m !! name with
  | Some v => under (Key name) (c v)
  | None => Valid d
  end.

(** A field whose annotation is another model: the input is a mapping. *)
Definition model_type {A : Type} (new : input → validation A) (v : raw)
  : validation A :=
  match v with
  | PyDict d => new d
  | _ => fail ModelType
  end.

(** A validator declared with [@validator] runs on the value the type
    layer produced. *)
Definition checked {A : Type} (c : raw → validation A) (f : A → string + A)
  (v : raw) : validation A :=
  after (c v) f.

(* ===================================================================== *)
(** ** User models *)
(* ===================================================================== *)

Module User.
Record t : Type := {
  id : pystr;
  email : pystr;
  name : pystr;
  created_at : py_datetime;
  updated_at : py_datetime
}.

Definition new `{External} (m : input) : validation t :=
  Valid Build_t
    <*> required "id" (str_type None None) m
    <*> required "email" email_type m
    <*> required "name" (str_type None None) m
    <*> required "created_at" datetime_type m
    <*> required "updated_at" datetime_type m.
End User.

Module UserRegistration.
Record t : Type := {
  email : pystr;
  password : pystr;
  name : pystr
}.

Definition new `{External} (m : input) : validation t :=
  Valid Build_t
    <*> required "email" email_type m
    <*> required "password" (str_type (Some 8%nat) None) m
    <*> required "name" (str_type (Some 1%nat) None) m.
End UserRegistration.

Module UserLogin.
Record t : Type := {
  email : pystr;
  password : pystr
}.

Definition new `{External} (m : input) : validation t :=
  Valid Build_t
    <*> required "email" email_type m
    <*> required "password" (str_type None None) m.
End UserLogin.

Module AuthResponse.
Record t : Type := {
  user : User.t;
  token : pystr
}.

Definition new `{External} (m : input) : validation t :=
  Valid Build_t
    <*> required "user" (model_type User.new) m
    <*> required "token" (str_type None None) m.
End AuthResponse.

(* ===================================================================== *)
(** ** Habit models *)
(* ===================================================================== *)

(** [Literal['daily', 'weekly', 'custom']] *)
Inductive HabitFrequency : Type := daily | weekly | custom.

(** [Literal['active', 'archived']] *)
Inductive HabitStatus : Type := active | archived.

Definition HabitFrequency_values : list (pystr * HabitFrequency) :=
  [(py "daily", daily); (py "weekly", weekly); (py "custom", custom)].

Definition HabitStatus_values : list (pystr * HabitStatus) :=
  [(py "active", active); (py "archived", archived)].

Definition HabitFrequency_str (f : HabitFrequency) : pystr :=
  match f with
  | daily => py "daily"
  | weekly => py "weekly"
  | custom => py "custom"
  end.

Definition HabitStatus_str (s : HabitStatus) : pystr :=
  match s with
  | active => py "active"
  | archived => py "archived"
  end.

Module HabitInput.
Record t : Type := {
  name : pystr;
  description : option pystr;
  frequency : HabitFrequency;
  target_days : option (list Z);
  color : option pystr;
  icon : option pystr
}.

(** The default of [color]. *)
Definition default_color : pystr := py "#3B82F6".

(** The default of [icon]: the one character U+2B50. *)
Definition default_icon : pystr := [0x2B50%N].

(** [if v and not re.match(r'^#[0-9A-Fa-f]{6}$', v): raise ValueError(...)]
    and [return v] otherwise. *)
Definition validate_color (v : option pystr) : string + option pystr :=
  if truthy_str v && negb (re_match hex_color_re (default [] v))
  then inl "Color must be a valid hex color code"%string
  else inr v.

(** The test of the loop body:
    [not isinstance(day, int) or day < 0 or day > 6]. *)
Definition day_refused (day : raw) : bool :=
  negb (isinstance_int day)
  || from_option (λ d, (d <? 0) || (6 <? d)) false (int_value day).

(** [if v:] the loop raises at the first refused day; [return v]
    otherwise.  The days are the integers the type layer produced. *)
Definition validate_target_days (v : option (list Z))
  : string + option (list Z) :=
  if truthy_list v && existsb (λ day, day_refused (PyInt day)) (default [] v)
  then inl "target_days must contain integers between 0 and 6"%string
  else inr v.

Section Fields.
Context `{External}.

Definition name_field : input → validation pystr :=
  required "name" (str_type (Some 1%nat) (Some 100%nat)).

Definition description_field : input → validation (option pystr) :=
  defaulted "description" None (optional (str_type None (Some 500%nat))).

Definition frequency_field : input → validation HabitFrequency :=
  required "frequency" (literal_type HabitFrequency_values).

Definition target_days_field : input → validation (option (list Z)) :=
  defaulted "target_days" (Some [])
    (checked (optional (list_type int_type)) validate_target_days).

Definition color_field : input → validation (option pystr) :=
  defaulted "color" (Some default_color)
    (checked (optional (str_type None None)) validate_color).

Definition icon_field : input → validation (option pystr) :=
  defaulted "icon" (Some default_icon) (optional (str_type None None)).

Definition new (m : input) : validation t :=
  Valid Build_t
    <*> name_field m
    <*> description_field m
    <*> frequency_field m
    <*> target_days_field m
    <*> color_field m
    <*> icon_field m.

End Fields.

(** The names of the fields, in the order of their declaration. *)
Definition fields : list string :=
  ["name"; "description"; "frequency"; "target_days"; "color"; "icon"]%string.


Definition opt_str (o : option pystr) : raw :=
  from_option PyStr PyNone o.

(** [model_dump()]: the fields as a mapping. *)
Definition dump_fields (h : t) : list (string * raw) :=
  [("name", PyStr (name h));
   ("description", opt_str (description h));
   ("frequency", PyStr (HabitFrequency_str (frequency h)));
   ("target_days", from_option (λ l, PyList (PyInt <$> l)) PyNone (target_days h));
   ("color", opt_str (color h));
   ("icon", opt_str (icon h))]%string.

Definition dump (h : t) : input := list_to_map (dump_fields h).
End HabitInput.

(** [Habit] inherits the fields and the validators of [HabitInput] and adds
    its own after them. *)
Module Habit.
Record t : Type := {
  base : HabitInput.t;
  id : pystr;
  user_id : pystr;
  status : HabitStatus;
  created_at : py_datetime;
  updated_at : py_datetime
}.

Definition status_field : input → validation HabitStatus :=
  defaulted "status" active (literal_type HabitStatus_values).

Definition new `{External} (m : input) : validation t :=
  Valid Build_t
    <*> HabitInput.new m
    <*> required "id" (str_type None None) m
    <*> required "user_id" (str_type None None) m
    <*> status_field m
    <*> required "created_at" datetime_type m
    <*> required "updated_at" datetime_type m.

Definition name (h : t) : pystr := HabitInput.name (base h).
Definition description (h : t) : option pystr := HabitInput.description (base h).
Definition frequency (h : t) : HabitFrequency := HabitInput.frequency (base h).
Definition target_days (h : t) : option (list Z) := HabitInput.target_days (base h).
Definition color (h : t) : option pystr := HabitInput.color (base h).
Definition icon (h : t) : option pystr := HabitInput.icon (base h).

(** [model_dump()] *)
Definition dump_fields (h : t) : list (string * raw) :=
  HabitInput.dump_fields (base h) ++
  [("id", PyStr (id h));
   ("user_id", PyStr (user_id h));
   ("status", PyStr (HabitStatus_str (status h)));
   ("created_at", PyDateTime (created_at h));
   ("updated_at", PyDateTime (updated_at h))]%string.

Definition dump (h : t) : input := list_to_map (dump_fields h).
End Habit.

(* ===================================================================== *)
(** ** Completion and statistics models *)
(* ===================================================================== *)

Module CompletionInput.
Record t : Type := {
  date : py_date;
  notes : option pystr
}.

Definition new `{External} (m : input) : validation t :=
  Valid Build_t
    <*> required "date" date_type m
    <*> defaulted "notes" None (optional (str_type None None)) m.
End CompletionInput.

(** [notes: Optional[str]] has no default: the key is required and may be
    [None]. *)
Module Completion.
Record t : Type := {
  id : pystr;
  habit_id : pystr;
  date : py_date;
  notes : option pystr;
  created_at : py_datetime
}.

Definition new `{External} (m : input) : validation t :=
  Valid Build_t
    <*> required "id" (str_type None None) m
    <*> required "habit_id" (str_type None None) m
    <*> required "date" date_type m
    <*> required "notes" (optional (str_type None None)) m
    <*> required "created_at" datetime_type m.
End Completion.

Module HabitStatistics.
Record t : Type := {
  habit_id : pystr;
  current_streak : Z;
  longest_streak : Z;
  total_completions : Z;
  completion_rate : spec_float;
  last_completed_date : option py_date
}.

Definition new `{External} (m : input) : validation t :=
  Valid Build_t
    <*> required "habit_id" (str_type None None) m
    <*> required "current_streak" int_type m
    <*> required "longest_streak" int_type m
    <*> required "total_completions" int_type m
    <*> required "completion_rate" float_type m
    <*> required "last_completed_date" (optional date_type) m.
End HabitStatistics.

(* ===================================================================== *)
(** ** API response models and query parameters *)
(* ===================================================================== *)

Module ApiError.
Record t : Type := {
  error : pystr;
  message : pystr;
  status_code : Z
}.

Definition new `{External} (m : input) : validation t :=
  Valid Build_t
    <*> required "error" (str_type None None) m
    <*> required "message" (str_type None None) m
    <*> required "status_code" int_type m.
End ApiError.

Module HealthResponse.
Record t : Type := {
  status : pystr;
  timestamp : py_datetime;
  version : pystr
}.

Definition new `{External} (m : input) : validation t :=
  Valid Build_t
    <*> required "status" (str_type None None) m
    <*> required "timestamp" datetime_type m
    <*> required "version" (str_type None None) m.
End HealthResponse.

Module HelloResponse.
Record t : Type := {
  message : pystr
}.

Definition new (m : input) : validation t :=
  Valid Build_t
    <*> required "message" (str_type None None) m.
End HelloResponse.

Module ListHabitsQuery.
Record t : Type := {
  status : option HabitStatus
}.

Definition new (m : input) : validation t :=
  Valid Build_t
    <*> defaulted "status" None (optional (literal_type HabitStatus_values)) m.
End ListHabitsQuery.

Module ListCompletionsQuery.
Record t : Type := {
  start_date : option py_date;
  end_date : option py_date
}.

Definition new `{External} (m : input) : validation t :=
  Valid Build_t
    <*> defaulted "start_date" None (optional date_type) m
    <*> defaulted "end_date" None (optional date_type) m.
End ListCompletionsQuery.

(* ===================================================================== *)
(** ** Vocabulary of the statements *)
(* ===================================================================== *)

(** [x] failed and [e] is one of the errors it raised. *)
Definition raises {A : Type} (x : validation A) (e : error) : Prop :=
  ∃ errs, x = Invalid errs ∧ e ∈ errs.

(** A failed validation carries at least one error. *)
Definition informative {A : Type} (x : validation A) : Prop :=
  match x with
  | Valid _ => True
  | Invalid e => e ≠ []
  end.

(** The field an error is located at. *)
Definition error_field (e : error) : option loc_item := head (fst e).

Definition with_color (c : option pystr) (h : HabitInput.t) : HabitInput.t :=
  {| HabitInput.name := HabitInput.name h;
     HabitInput.description := HabitInput.description h;
     HabitInput.frequency := HabitInput.frequency h;
     HabitInput.target_days := HabitInput.target_days h;
     HabitInput.color := c;
     HabitInput.icon := HabitInput.icon h |}.

Definition with_icon (i : option pystr) (h : HabitInput.t) : HabitInput.t :=
  {| HabitInput.name := HabitInput.name h;
     HabitInput.description := HabitInput.description h;
     HabitInput.frequency := HabitInput.frequency h;
     HabitInput.target_days := HabitInput.target_days h;
     HabitInput.color := HabitInput.color h;
     HabitInput.icon := i |}.

Definition with_target_days (d : option (list Z)) (h : HabitInput.t)
  : HabitInput.t :=
  {| HabitInput.name := HabitInput.name h;
     HabitInput.description := HabitInput.description h;
     HabitInput.frequency := HabitInput.frequency h;
     HabitInput.target_days := d;
     HabitInput.color := HabitInput.color h;
     HabitInput.icon := HabitInput.icon h |}.


Definition with_description (d : option pystr) (h : HabitInput.t)
  : HabitInput.t :=
  {| HabitInput.name := HabitInput.name h;
     HabitInput.description := d;
     HabitInput.frequency := HabitInput.frequency h;
     HabitInput.target_days := HabitInput.target_days h;
     HabitInput.color := HabitInput.color h;
     HabitInput.icon := HabitInput.icon h |}.

Definition with_frequency (f : HabitFrequency) (h : HabitInput.t)
  : HabitInput.t :=
  {| HabitInput.name := HabitInput.name h;
     HabitInput.description := HabitInput.description h;
     HabitInput.frequency := f;
     HabitInput.target_days := HabitInput.target_days h;
     HabitInput.color := HabitInput.color h;
     HabitInput.icon := HabitInput.icon h |}.

(** A habit with its inherited part replaced. *)
Definition with_base (b : HabitInput.t) (h : Habit.t) : Habit.t :=
  {| Habit.base := b;
     Habit.id := Habit.id h;
     Habit.user_id := Habit.user_id h;
     Habit.status := Habit.status h;
     Habit.created_at := Habit.created_at h;
     Habit.updated_at := Habit.updated_at h |}.

Definition with_status (st : HabitStatus) (h : Habit.t) : Habit.t :=
  {| Habit.base := Habit.base h;
     Habit.id := Habit.id h;
     Habit.user_id := Habit.user_id h;
     Habit.status := st;
     Habit.created_at := Habit.created_at h;
     Habit.updated_at := Habit.updated_at h |}.

(** The fields of a [Habit]: the inherited ones, then its own. *)
Definition habit_fields : list string :=
  HabitInput.fields
  ++ ["id"; "user_id"; "status"; "created_at"; "updated_at"]%string.

(** The keys a [Habit] cannot be built without. *)
Definition habit_required : list string :=
  ["name"; "frequency"; "id"; "user_id"; "created_at"; "updated_at"]%string.

(** What the two validators and the [Field] bounds leave of a
    [HabitInput]. *)
Record habit_invariant (h : HabitInput.t) : Prop := {
  inv_name : (1 ≤ length (HabitInput.name h) ≤ 100)%nat;
  inv_description :
    ∀ d, HabitInput.description h = Some d → (length d ≤ 500)%nat;
  inv_target_days :
    ∀ l, HabitInput.target_days h = Some l → Forall (λ d, 0 ≤ d ≤ 6) l;
  inv_color :
    ∀ c, HabitInput.color h = Some c →
         c = [] ∨ re_match hex_color_re c = true
}.

(** An element of [target_days] that the type layer does not turn into an
    integer, or turns into one outside 0..6. *)
Definition refused_day `{External} (x : raw) : Prop :=
  match int_type x with
  | Valid d => d < 0 ∨ 6 < d
  | Invalid _ => True
  end.

(** A string of the shape [#] followed by six hexadecimal digits. *)
Definition hex_color (s : pystr) : Prop :=
  ∃ ds, s = ord "#" :: ds ∧ length ds = 6%nat
        ∧ Forall (λ c, in_class [(ord "0", ord "9"); (ord "A", ord "F");
                                  (ord "a", ord "f")] c = true) ds.

(** The strings [validate_color] lets through. *)
Definition accepted_color (s : pystr) : Prop :=
  s = [] ∨ hex_color s ∨ ∃ s0, hex_color s0 ∧ s = s0 ++ [10%N].

(* ===================================================================== *)
(** ** Concrete inputs *)
(* ===================================================================== *)

(** An instance of the library parameters to evaluate the models with: an
    address is accepted when it contains [@], and nothing is converted
    beyond what the type layer above writes out. *)
Definition sample_external : External := {|
  validate_email s := if bool_decide (ord "@" ∈ s) then Some s else None;
  int_lax _ := None;
  float_lax _ := None;
  date_lax _ := None;
  datetime_lax _ := None
|}.

Definition sample_time : py_datetime :=
  mk_datetime (mk_date 2024 1 15) 9 30 0 0 None.

(** The required fields of a [Habit] and nothing else. *)
Definition sample_habit : input :=
  list_to_map
    [("name", PyStr (py "Run"));
     ("frequency", PyStr (py "daily"));
     ("id", PyStr (py "h1"));
     ("user_id", PyStr (py "u1"));
     ("created_at", PyDateTime sample_time);
     ("updated_at", PyDateTime sample_time)]%string.

Definition sample_habit_base : HabitInput.t :=
  {| HabitInput.name := py "Run";
     HabitInput.description := None;
     HabitInput.frequency := daily;
     HabitInput.target_days := Some [];
     HabitInput.color := Some HabitInput.default_color;
     HabitInput.icon := Some HabitInput.default_icon |}.

Definition sample_habit_record : Habit.t :=
  {| Habit.base := sample_habit_base;
     Habit.id := py "h1";
     Habit.user_id := py "u1";
     Habit.status := active;
     Habit.created_at := sample_time;
     Habit.updated_at := sample_time |}.

Definition sample_registration (password : pystr) : input :=
  list_to_map
    [("email", PyStr (py "ann@example.org"));
     ("password", PyStr password);
     ("name", PyStr (py "Ann"))]%string.

(** One mapping written with its keys in two orders. *)
Definition sample_user : input :=
  <["id"%string := PyStr (py "u1")]>
    (<["email"%string := PyStr (py "ann@example.org")]>
       (<["name"%string := PyStr (py "Ann")]>
          (<["created_at"%string := PyDateTime sample_time]>
             (<["updated_at"%string := PyDateTime sample_time]> ∅)))).


Definition sample_user_record : User.t :=
  {| User.id := py "u1";
     User.email := py "ann@example.org";
     User.name := py "Ann";
     User.created_at := sample_time;
     User.updated_at := sample_time |}.

(** An [AuthResponse] payload whose [user] is [sample_user]. *)
Definition sample_auth : input :=
  list_to_map
    [("user", PyDict sample_user); ("token", PyStr (py "t0"))]%string.

Definition sample_completion : input :=
  list_to_map
    [("id", PyStr (py "c1"));
     ("habit_id", PyStr (py "h1"));
     ("date", PyDate (mk_date 2024 1 15));
     ("notes", PyNone);
     ("created_at", PyDateTime sample_time)]%string.

(* ===================================================================== *)
(** ** Properties of the validation combinators *)
(* ===================================================================== *)

Lemma errors_of_vap {A B : Type} (f : validation (A → B)) (x : validation A) :
  errors_of (f <*> x) = errors_of f ++ errors_of x.
Proof.
  destruct f, x; simpl; try reflexivity.
  symmetry; apply app_nil_r.
Qed.

Lemma vap_valid_inv {A B : Type} (f : validation (A → B)) (x : validation A) b :
  f <*> x = Valid b → ∃ g a, f = Valid g ∧ x = Valid a ∧ b = g a.
Proof.
  destruct f as [g|], x as [a|]; simpl; intros Hb; try discriminate.
  injection Hb as <-. by exists g, a.
Qed.

Lemma raises_errors_of {A : Type} (x : validation A) e :
  raises x e ↔ e ∈ errors_of x.
Proof.
  split.
  - intros (errs & -> & He). exact He.
  - destruct x as [a|errs]; simpl.
    + intros He. by apply elem_of_nil in He.
    + intros He. by exists errs.
Qed.

Lemma raises_vap_l {A B : Type} (f : validation (A → B)) (x : validation A) e :
  raises f e → raises (f <*> x) e.
Proof.
  rewrite !raises_errors_of, errors_of_vap, elem_of_app. by left.
Qed.

Lemma raises_vap_r {A B : Type} (f : validation (A → B)) (x : validation A) e :
  raises x e → raises (f <*> x) e.
Proof.
  rewrite !raises_errors_of, errors_of_vap, elem_of_app. by right.
Qed.


(** *** A failed validation is never empty *)


Lemma informative_of_option {A : Type} r (o : option A) :
  informative (of_option r o).
Proof. destruct o; simpl; [exact I|discriminate]. Qed.


Lemma informative_vap {A B : Type} (f : validation (A → B)) x :
  informative f → informative x → informative (f <*> x).
Proof.
  destruct f as [|e1], x as [|e2]; simpl; try done.
  intros H1 _ Happ. by apply app_eq_nil in Happ as [? _].
Qed.

Lemma informative_under {A : Type} i (x : validation A) :
  informative x → informative (under i x).
Proof.
  destruct x as [|e]; simpl; [done|].
  intros He Hmap. by apply fmap_nil_inv in Hmap.
Qed.


Lemma informative_items_from {A : Type} (c : raw → validation A) l :
  (∀ v, informative (c v)) → ∀ i, informative (items_from c i l).
Proof.
  intros Hc. induction l as [|x l IH]; intros i; cbn [items_from]; [exact I|].
  apply informative_vap; [|apply IH].
  apply informative_vap; [exact I|]. apply informative_under, Hc.
Qed.






Lemma informative_int_type `{External} v : informative (int_type v).
Proof.
  destruct v; try apply informative_of_option; try exact I.
  unfold int_type. case_match; [exact I|apply informative_of_option].
Qed.



Lemma raises_invalid_under {A : Type} i (x : validation A) :
  informative x → is_valid x = false →
  ∃ e, raises (under i x) e ∧ error_field e = Some i.
Proof.
  destruct x as [a|[|[l r] errs]]; simpl; intros Hi Hv; try done.
  exists (i :: l, r). split; [|reflexivity].
  eexists. split; [reflexivity|]. apply list_elem_of_here.
Qed.

(** *** Lookups of the fields *)

Lemma required_lookup {A : Type} name (c : raw → validation A) m v :
  m !! name = Some v → required name c m = under (Key name) (c v).
Proof. unfold required. by intros ->. Qed.

Lemma defaulted_lookup {A : Type} name d (c : raw → validation A) m v :
  m !! name = Some v → defaulted name d c m = under (Key name) (c v).
Proof. unfold defaulted. by intros ->. Qed.

Lemma defaulted_missing {A : Type} name d (c : raw → validation A) m :
  m !! name = None → defaulted name d c m = Valid d.
Proof. unfold defaulted. by intros ->. Qed.

(** A field reads its own key only. *)
Lemma required_ext {A : Type} name (c : raw → validation A) (m1 m2 : input) :
  m1 !! name = m2 !! name → required name c m1 = required name c m2.
Proof. unfold required. by intros ->. Qed.

Lemma defaulted_ext {A : Type} name d (c : raw → validation A) (m1 m2 : input) :
  m1 !! name = m2 !! name → defaulted name d c m1 = defaulted name d c m2.
Proof. unfold defaulted. by intros ->. Qed.

Lemma required_insert_ne {A : Type} name (c : raw → validation A) k v (m : input) :
  k ≠ name → required name c (<[k:=v]> m) = required name c m.
Proof. intros Hk. apply required_ext. by apply lookup_insert_ne. Qed.

Lemma defaulted_insert_ne {A : Type} name d (c : raw → validation A) k v (m : input) :
  k ≠ name → defaulted name d c (<[k:=v]> m) = defaulted name d c m.
Proof. intros Hk. apply defaulted_ext. by apply lookup_insert_ne. Qed.

(** *** The pattern of [validate_color] *)

Lemma in_class_hex_digit c :
  in_class [(ord "0", ord "9"); (ord "A", ord "F"); (ord "a", ord "f")] c = true ↔
  (48 ≤ c ≤ 57 ∨ 65 ≤ c ≤ 70 ∨ 97 ≤ c ≤ 102)%N.
Proof.
  unfold in_class, ord. simpl.
  rewrite !orb_true_iff, !andb_true_iff, !N.leb_le. intuition lia.
Qed.

Lemma at_eol_spec s : at_eol s = true ↔ s = [] ∨ s = [10%N].
Proof.
  destruct s as [|c [|c' s]]; simpl.
  - intuition.
  - rewrite N.eqb_eq. split; [intros ->; by right|].
    intros [?|[= ->]]; done.
  - split; [done|]. intros [?|?]; done.
Qed.

(** [re.match] with the pattern accepts [#hhhhhh] and, because of what [$]
    means, the same string followed by one newline; nothing else. *)
Lemma hex_color_re_spec s :
  re_match hex_color_re s = true ↔
  hex_color s ∨ ∃ s0, hex_color s0 ∧ s = s0 ++ [10%N].
Proof.
  unfold re_match, hex_color_re, hex_digit, hex_color. split.
  - destruct s as [|c0 [|c1 [|c2 [|c3 [|c4 [|c5 [|c6 rest]]]]]]];
      simpl; rewrite ?andb_false_r; try discriminate.
    rewrite !andb_true_iff, N.eqb_eq, at_eol_spec.
    intros (-> & H1 & H2 & H3 & H4 & H5 & H6 & Hrest & _).
    assert (Forall (λ c, in_class [(ord "0", ord "9"); (ord "A", ord "F");
                                    (ord "a", ord "f")] c = true)
                   [c1; c2; c3; c4; c5; c6]) as Hall
      by (repeat constructor; assumption).
    destruct Hrest as [-> | ->].
    + left. by exists [c1; c2; c3; c4; c5; c6].
    + right. exists (ord "#" :: [c1; c2; c3; c4; c5; c6]). split; [|done].
      by exists [c1; c2; c3; c4; c5; c6].
  - assert (∀ ds rest, length ds = 6%nat →
      Forall (λ c, in_class [(ord "0", ord "9"); (ord "A", ord "F");
                              (ord "a", ord "f")] c = true) ds →
      at_eol rest = true →
      match_here ([Bol; Lit (ord "#")] ++ replicate 6
        (Cls [(ord "0", ord "9"); (ord "A", ord "F"); (ord "a", ord "f")])
        ++ [Eol]) true (ord "#" :: ds ++ rest) = true) as Hok.
    { intros ds rest Hlen Hall Hrest.
      destruct ds as [|c1 [|c2 [|c3 [|c4 [|c5 [|c6 [|]]]]]]]; try discriminate.
      repeat match goal with
             | H : Forall _ (_ :: _) |- _ => apply Forall_cons in H as [? H]
             end.
      cbn [app replicate match_here]. rewrite N.eqb_refl. cbn [andb].
      repeat match goal with
             | H : in_class _ _ = true |- _ => rewrite H; clear H
             end.
      cbn [andb]. by rewrite Hrest. }
    intros [(ds & -> & Hlen & Hall) | (s0 & (ds & -> & Hlen & Hall) & ->)].
    + rewrite <- (app_nil_r ds). by apply Hok.
    + change ((ord "#" :: ds) ++ [10%N]) with (ord "#" :: ds ++ [10%N]).
      by apply Hok.
Qed.

(** *** The fields of [HabitInput] *)

Section HabitInputFields.
Context `{External}.

Lemma day_refused_int d :
  HabitInput.day_refused (PyInt d) = (d <? 0) || (6 <? d).
Proof. reflexivity. Qed.

Lemma validate_target_days_ok l :
  Forall (λ d, 0 ≤ d ≤ 6) l →
  HabitInput.validate_target_days (Some l) = inr (Some l).
Proof.
  intros Hall. unfold HabitInput.validate_target_days.
  replace (existsb _ _) with false; [by rewrite andb_false_r|].
  symmetry. apply not_true_is_false. intros Hex.
  apply existsb_exists in Hex as (d & Hd & Hbad).
  rewrite Forall_forall in Hall. apply list_elem_of_In, Hall in Hd.
  rewrite day_refused_int in Hbad. lia.
Qed.

Lemma validate_target_days_inr v v' :
  HabitInput.validate_target_days v = inr v' →
  v' = v ∧ ∀ l, v = Some l → Forall (λ d, 0 ≤ d ≤ 6) l.
Proof.
  unfold HabitInput.validate_target_days.
  destruct (truthy_list v && _) eqn:Hc; [discriminate|].
  intros [= <-]. split; [reflexivity|]. intros l ->.
  apply Forall_forall. intros d Hd.
  destruct l as [|d0 l]; [by apply elem_of_nil in Hd|].
  simpl in Hc. change (d0 :: l) with (default [] (Some (d0 :: l))) in Hd.
  simpl in Hd.
  assert (HabitInput.day_refused (PyInt d) = false) as Hok.
  { apply not_true_is_false. intros Hbad.
    assert (existsb (λ day, HabitInput.day_refused (PyInt day)) (d0 :: l) = true)
      as Hex by (apply existsb_exists; exists d; split;
                 [by apply list_elem_of_In|done]).
    simpl in Hex. congruence. }
  rewrite day_refused_int in Hok. lia.
Qed.

Lemma validate_target_days_bad l d :
  d ∈ l → d < 0 ∨ 6 < d →
  HabitInput.validate_target_days (Some l) =
    inl "target_days must contain integers between 0 and 6"%string.
Proof.
  intros Hd Hbad. unfold HabitInput.validate_target_days. simpl.
  assert (existsb (λ day, HabitInput.day_refused (PyInt day)) l = true) as ->.
  { apply existsb_exists. exists d. split; [by apply list_elem_of_In|].
    rewrite day_refused_int. lia. }
  destruct l; [by apply elem_of_nil in Hd|]. reflexivity.
Qed.

Lemma validate_color_inr v v' :
  HabitInput.validate_color v = inr v' →
  v' = v ∧ ∀ c, v = Some c → c = [] ∨ re_match hex_color_re c = true.
Proof.
  unfold HabitInput.validate_color.
  destruct (truthy_str v && _) eqn:Hc; [discriminate|].
  intros [= <-]. split; [reflexivity|]. intros c ->.
  destruct c as [|c0 c]; [by left|]. right.
  simpl in Hc. by apply negb_false_iff in Hc.
Qed.

Lemma validate_color_match s :
  re_match hex_color_re s = true →
  HabitInput.validate_color (Some s) = inr (Some s).
Proof.
  intros Hs. unfold HabitInput.validate_color. simpl.
  by rewrite Hs, andb_false_r.
Qed.

Lemma validate_color_bad s :
  s ≠ [] → re_match hex_color_re s = false →
  HabitInput.validate_color (Some s) =
    inl "Color must be a valid hex color code"%string.
Proof.
  intros Hne Hs. unfold HabitInput.validate_color. simpl. rewrite Hs.
  by destruct s.
Qed.

Lemma color_field_str m s :
  m !! "color"%string = Some (PyStr s) →
  HabitInput.color_field m =
    match HabitInput.validate_color (Some s) with
    | inl msg => Invalid [([Key "color"], ValueErr msg)]
    | inr v => Valid v
    end.
Proof.
  intros Hm. unfold HabitInput.color_field.
  rewrite (defaulted_lookup _ _ _ _ _ Hm). unfold checked. simpl.
  by destruct (HabitInput.validate_color (Some s)).
Qed.

Lemma icon_field_str m s :
  m !! "icon"%string = Some (PyStr s) → HabitInput.icon_field m = Valid (Some s).
Proof.
  intros Hm. unfold HabitInput.icon_field.
  by rewrite (defaulted_lookup _ _ _ _ _ Hm).
Qed.

Lemma items_from_ints i (ds : list Z) :
  items_from int_type i (PyInt <$> ds) = Valid ds.
Proof.
  revert i. induction ds as [|d ds IH]; intros i; [reflexivity|].
  cbn [fmap list_fmap items_from]. by rewrite IH.
Qed.

Lemma items_from_valid {A : Type} (c : raw → validation A) l i ds :
  items_from c i l = Valid ds → Forall2 (λ x d, c x = Valid d) l ds.
Proof.
  revert i ds. induction l as [|x l IH]; intros i ds; cbn [items_from].
  - intros [= <-]. constructor.
  - intros Hv. apply vap_valid_inv in Hv as (g & ds' & Hg & Hl & ->).
    apply vap_valid_inv in Hg as (g' & d & [= <-] & Hx & ->).
    constructor; [|by eapply IH].
    by destruct (c x); [injection Hx as ->|].
Qed.

Lemma target_days_field_list m l :
  m !! "target_days"%string = Some (PyList l) →
  HabitInput.target_days_field m =
    under (Key "target_days")
      (after (vmap Some (items_from int_type 0 l))
             HabitInput.validate_target_days).
Proof.
  intros Hm. unfold HabitInput.target_days_field.
  by rewrite (defaulted_lookup _ _ _ _ _ Hm).
Qed.

Lemma target_days_field_ints m ds :
  m !! "target_days"%string = Some (PyList (PyInt <$> ds)) →
  Forall (λ d, 0 ≤ d ≤ 6) ds →
  HabitInput.target_days_field m = Valid (Some ds).
Proof.
  intros Hm Hall. rewrite (target_days_field_list _ _ Hm), items_from_ints.
  simpl. by rewrite validate_target_days_ok.
Qed.

(** The record is built exactly when each of the six fields is valid. *)
Lemma HabitInput_new_valid m h :
  HabitInput.new m = Valid h ↔
    HabitInput.name_field m = Valid (HabitInput.name h)
    ∧ HabitInput.description_field m = Valid (HabitInput.description h)
    ∧ HabitInput.frequency_field m = Valid (HabitInput.frequency h)
    ∧ HabitInput.target_days_field m = Valid (HabitInput.target_days h)
    ∧ HabitInput.color_field m = Valid (HabitInput.color h)
    ∧ HabitInput.icon_field m = Valid (HabitInput.icon h).
Proof.
  unfold HabitInput.new. split.
  - intros Hv.
    repeat match type of Hv with
           | _ <*> _ = Valid _ =>
               let g := fresh "g" in
               let Hx := fresh "Hx" in
               apply vap_valid_inv in Hv as (g & ? & Hv & Hx & ->)
           end.
    injection Hv as <-. simpl. repeat split; assumption.
  - intros (-> & -> & -> & -> & -> & ->). by destruct h.
Qed.

Lemma HabitInput_errors m :
  errors_of (HabitInput.new m) =
    errors_of (HabitInput.name_field m)
    ++ errors_of (HabitInput.description_field m)
    ++ errors_of (HabitInput.frequency_field m)
    ++ errors_of (HabitInput.target_days_field m)
    ++ errors_of (HabitInput.color_field m)
    ++ errors_of (HabitInput.icon_field m).
Proof.
  unfold HabitInput.new. rewrite !errors_of_vap. simpl.
  by rewrite <- !app_assoc.
Qed.


End HabitInputFields.

(** Membership of a literal key in [HabitInput.fields]. *)
Ltac inherited_field :=
  unfold HabitInput.fields;
  repeat first [apply list_elem_of_here | apply list_elem_of_further].

(** *** Replacing one field of a valid input *)

Section Replace.
Context `{External}.

Lemma HabitInput_new_set_color m h v c :
  HabitInput.new m = Valid h →
  HabitInput.color_field (<["color"%string := v]> m) = Valid c →
  HabitInput.new (<["color"%string := v]> m) = Valid (with_color c h).
Proof.
  rewrite !HabitInput_new_valid.
  intros (Hn & Hd & Hf & Ht & _ & Hi) Hc. simpl.
  unfold HabitInput.name_field, HabitInput.description_field,
    HabitInput.frequency_field, HabitInput.target_days_field,
    HabitInput.icon_field in *.
  rewrite !required_insert_ne, !defaulted_insert_ne by done.
  by repeat split.
Qed.

Lemma HabitInput_new_set_icon m h v i :
  HabitInput.new m = Valid h →
  HabitInput.icon_field (<["icon"%string := v]> m) = Valid i →
  HabitInput.new (<["icon"%string := v]> m) = Valid (with_icon i h).
Proof.
  rewrite !HabitInput_new_valid.
  intros (Hn & Hd & Hf & Ht & Hc & _) Hi. simpl.
  unfold HabitInput.name_field, HabitInput.description_field,
    HabitInput.frequency_field, HabitInput.target_days_field,
    HabitInput.color_field in *.
  rewrite !required_insert_ne, !defaulted_insert_ne by done.
  by repeat split.
Qed.

Lemma HabitInput_new_set_target_days m h v d :
  HabitInput.new m = Valid h →
  HabitInput.target_days_field (<["target_days"%string := v]> m) = Valid d →
  HabitInput.new (<["target_days"%string := v]> m) = Valid (with_target_days d h).
Proof.
  rewrite !HabitInput_new_valid.
  intros (Hn & Hd & Hf & _ & Hc & Hi) Ht. simpl.
  unfold HabitInput.name_field, HabitInput.description_field,
    HabitInput.frequency_field, HabitInput.color_field,
    HabitInput.icon_field in *.
  rewrite !required_insert_ne, !defaulted_insert_ne by done.
  by repeat split.
Qed.

(** [Habit] is built exactly when the inherited part and each of its own
    five fields are valid. *)
Lemma Habit_new_valid m h :
  Habit.new m = Valid h ↔
    HabitInput.new m = Valid (Habit.base h)
    ∧ required "id" (str_type None None) m = Valid (Habit.id h)
    ∧ required "user_id" (str_type None None) m = Valid (Habit.user_id h)
    ∧ Habit.status_field m = Valid (Habit.status h)
    ∧ required "created_at" datetime_type m = Valid (Habit.created_at h)
    ∧ required "updated_at" datetime_type m = Valid (Habit.updated_at h).
Proof.
  unfold Habit.new. split.
  - intros Hv.
    repeat match type of Hv with
           | _ <*> _ = Valid _ =>
               let g := fresh "g" in
               let Hx := fresh "Hx" in
               apply vap_valid_inv in Hv as (g & ? & Hv & Hx & ->)
           end.
    injection Hv as <-. simpl. repeat split; assumption.
  - intros (-> & -> & -> & -> & -> & ->). by destruct h.
Qed.

Lemma Habit_errors m :
  errors_of (Habit.new m) =
    errors_of (HabitInput.new m)
    ++ errors_of (required "id" (str_type None None) m)
    ++ errors_of (required "user_id" (str_type None None) m)
    ++ errors_of (Habit.status_field m)
    ++ errors_of (required "created_at" datetime_type m)
    ++ errors_of (required "updated_at" datetime_type m).
Proof.
  unfold Habit.new. rewrite !errors_of_vap. simpl.
  by rewrite <- !app_assoc.
Qed.

(** An error of the inherited part is an error of the [Habit]. *)
Lemma Habit_raises_base m e :
  raises (HabitInput.new m) e → raises (Habit.new m) e.
Proof.
  rewrite !raises_errors_of, Habit_errors, elem_of_app. by left.
Qed.

(** Replacing an inherited field leaves the fields [Habit] adds alone. *)
Lemma Habit_new_set_base m h k v b :
  k ∈ HabitInput.fields →
  Habit.new m = Valid h →
  HabitInput.new (<[k := v]> m) = Valid b →
  Habit.new (<[k := v]> m) = Valid (with_base b h).
Proof.
  intros Hk. rewrite !Habit_new_valid.
  intros (_ & Hid & Hu & Hs & Hc & Hup) Hb. simpl.
  unfold Habit.status_field in *.
  assert (k ≠ "id" ∧ k ≠ "user_id" ∧ k ≠ "status" ∧ k ≠ "created_at"
          ∧ k ≠ "updated_at")%string as (? & ? & ? & ? & ?).
  { unfold HabitInput.fields in Hk.
    repeat (apply elem_of_cons in Hk as [-> | Hk]; [done|]).
    by apply elem_of_nil in Hk. }
  rewrite !required_insert_ne, !defaulted_insert_ne by done.
  by repeat split.
Qed.

Lemma raises_color_field m e :
  raises (HabitInput.color_field m) e → raises (HabitInput.new m) e.
Proof.
  rewrite !raises_errors_of, HabitInput_errors, !elem_of_app. tauto.
Qed.

Lemma raises_target_days_field m e :
  raises (HabitInput.target_days_field m) e → raises (HabitInput.new m) e.
Proof.
  rewrite !raises_errors_of, HabitInput_errors, !elem_of_app. tauto.
Qed.

(** Every [HabitInput] that was built satisfies the invariant. *)
Lemma HabitInput_new_invariant m h :
  HabitInput.new m = Valid h → habit_invariant h.
Proof.
  rewrite HabitInput_new_valid.
  intros (Hn & Hd & _ & Ht & Hc & _). split.
  - unfold HabitInput.name_field, required in Hn.
    destruct (m !! "name"%string) as [[]|]; try discriminate.
    unfold str_type in Hn. simpl in Hn.
    destruct (length s <? 1)%nat eqn:H1; [discriminate|].
    destruct (100 <? length s)%nat eqn:H2; [discriminate|].
    injection Hn as <-.
    apply Nat.ltb_ge in H1, H2. lia.
  - intros d Hd'. rewrite Hd' in Hd.
    unfold HabitInput.description_field, defaulted in Hd.
    destruct (m !! "description"%string) as [[]|]; try discriminate.
    unfold optional, str_type in Hd. simpl in Hd.
    destruct (500 <? length s)%nat eqn:H2; [discriminate|].
    injection Hd as <-. by apply Nat.ltb_ge in H2.
  - intros l Hl. rewrite Hl in Ht.
    unfold HabitInput.target_days_field, defaulted in Ht.
    destruct (m !! "target_days"%string) as [v|].
    + unfold checked in Ht.
      destruct (optional (list_type int_type) v) as [o|]; [|discriminate].
      simpl in Ht.
      destruct (HabitInput.validate_target_days o) as [|o'] eqn:Hv;
        [discriminate|].
      injection Ht as ->.
      apply validate_target_days_inr in Hv as [<- Hall]. by apply Hall.
    + injection Ht as <-. constructor.
  - intros c Hc'. rewrite Hc' in Hc.
    unfold HabitInput.color_field, defaulted in Hc.
    destruct (m !! "color"%string) as [v|].
    + unfold checked in Hc.
      destruct (optional (str_type None None) v) as [o|]; [|discriminate].
      simpl in Hc.
      destruct (HabitInput.validate_color o) as [|o'] eqn:Hv; [discriminate|].
      injection Hc as ->.
      apply validate_color_inr in Hv as [<- Hok]. by apply Hok.
    + injection Hc as <-. right. reflexivity.
Qed.

End Replace.

(* ===================================================================== *)
(** ** The color of a habit *)
(* ===================================================================== *)

(** C1, as the specification states it, fails at the empty string: it
    does not match the pattern, and yet a [HabitInput] and a [Habit] given
    the empty string as [color] are built and keep it, because
    [validate_color] tests the pattern under [if v and ...] only. *)
Lemma empty_color_is_accepted :
  re_match hex_color_re [] = false
  ∧ ∀ E : External,
      @HabitInput.new E (<["color"%string := PyStr []]> sample_habit)
        = Valid (with_color (Some []) sample_habit_base)
      ∧ @Habit.new E (<["color"%string := PyStr []]> sample_habit)
        = Valid (with_base (with_color (Some []) sample_habit_base)
                           sample_habit_record).
Proof.
  split; [reflexivity|]. intros E. split; vm_compute; reflexivity.
Qed.

(** C1, amended.  A non-empty string that does not match
    [^#[0-9A-Fa-f]{6}$], given as [color], makes the construction of a
    [HabitInput] and of a [Habit] fail with an error located at [color],
    whatever the other fields are.  The empty string is accepted and kept.
    Hence the color of every record that was built is [None], the empty
    string, or a string that matches the pattern. *)
Theorem color_is_validated `{External} (m : input) (s : pystr) :
  (s ≠ [] → re_match hex_color_re s = false →
     raises (HabitInput.new (<["color"%string := PyStr s]> m))
            ([Key "color"], ValueErr "Color must be a valid hex color code")
     ∧ raises (Habit.new (<["color"%string := PyStr s]> m))
              ([Key "color"], ValueErr "Color must be a valid hex color code"))
  ∧ (∀ h, HabitInput.new m = Valid h →
          HabitInput.new (<["color"%string := PyStr []]> m)
            = Valid (with_color (Some []) h))
  ∧ (∀ h, Habit.new m = Valid h →
          Habit.new (<["color"%string := PyStr []]> m)
            = Valid (with_base (with_color (Some []) (Habit.base h)) h))
  ∧ (∀ h c, HabitInput.new m = Valid h → HabitInput.color h = Some c →
            c = [] ∨ re_match hex_color_re c = true)
  ∧ (∀ h c, Habit.new m = Valid h → Habit.color h = Some c →
            c = [] ∨ re_match hex_color_re c = true).
Proof.
  assert (∀ h, HabitInput.new m = Valid h →
               HabitInput.new (<["color"%string := PyStr []]> m)
                 = Valid (with_color (Some []) h)) as Hempty.
  { intros h Hh. apply HabitInput_new_set_color; [exact Hh|].
    rewrite (color_field_str _ []) by apply lookup_insert_eq.
    reflexivity. }
  split; [|split; [|split; [|split]]].
  - intros Hne Hs.
    assert (raises (HabitInput.new (<["color"%string := PyStr s]> m))
              ([Key "color"], ValueErr "Color must be a valid hex color code"))
      as Hraise.
    { apply raises_color_field.
      rewrite (color_field_str _ s) by apply lookup_insert_eq.
      rewrite validate_color_bad by assumption.
      eexists. split; [reflexivity|]. apply list_elem_of_here. }
    split; [exact Hraise|]. by apply Habit_raises_base.
  - exact Hempty.
  - intros h Hh. apply Habit_new_set_base; [|exact Hh|].
    + inherited_field.
    + apply Hempty. by apply Habit_new_valid in Hh as [? _].
  - intros h c Hh. by apply (inv_color h (HabitInput_new_invariant m h Hh)).
  - intros h c Hh. apply Habit_new_valid in Hh as [Hh _].
    by apply (inv_color _ (HabitInput_new_invariant m _ Hh)).
Qed.

Lemma color_is_validated_witness :
  raises (@Habit.new sample_external
            (<["color"%string := PyStr (py "red")]> sample_habit))
         ([Key "color"], ValueErr "Color must be a valid hex color code").
Proof.
  destruct (@color_is_validated sample_external sample_habit (py "red"))
    as [Hbad _].
  apply Hbad; [discriminate|reflexivity].
Defined.

(** C2.  A string that matches [^#[0-9A-Fa-f]{6}$], given as [color] next
    to fields that are valid, yields a [HabitInput] and a [Habit] whose
    color is that very string; the other fields are not affected. *)
Theorem matching_color_is_kept `{External} (m : input) (s : pystr) :
  re_match hex_color_re s = true →
  (∀ h, HabitInput.new m = Valid h →
        HabitInput.new (<["color"%string := PyStr s]> m)
          = Valid (with_color (Some s) h))
  ∧ (∀ h, Habit.new m = Valid h →
          ∃ h', Habit.new (<["color"%string := PyStr s]> m) = Valid h'
                ∧ Habit.color h' = Some s
                ∧ h' = with_base (with_color (Some s) (Habit.base h)) h).
Proof.
  intros Hs.
  assert (∀ h, HabitInput.new m = Valid h →
               HabitInput.new (<["color"%string := PyStr s]> m)
                 = Valid (with_color (Some s) h)) as Hin.
  { intros h Hh. apply HabitInput_new_set_color; [exact Hh|].
    rewrite (color_field_str _ s) by apply lookup_insert_eq.
    by rewrite validate_color_match. }
  split; [exact Hin|].
  intros h Hh. eexists. split; [|split; [|reflexivity]]; [|reflexivity].
  apply Habit_new_set_base; [|exact Hh|].
  - inherited_field.
  - apply Hin. by apply Habit_new_valid in Hh as [? _].
Qed.

Lemma matching_color_is_kept_witness :
  ∃ h', @Habit.new sample_external
          (<["color"%string := PyStr (py "#a1B2c3")]> sample_habit) = Valid h'
        ∧ Habit.color h' = Some (py "#a1B2c3")
        ∧ h' = with_base (with_color (Some (py "#a1B2c3"))
                            (Habit.base sample_habit_record))
                         sample_habit_record.
Proof.
  destruct (@matching_color_is_kept sample_external sample_habit
              (py "#a1B2c3") eq_refl) as [_ Hhabit].
  apply Hhabit. vm_compute. reflexivity.
Defined.

(* ===================================================================== *)
(** ** The target days of a habit *)
(* ===================================================================== *)

Section TargetDays.
Context `{External}.

Lemma items_from_Forall2 {A : Type} (c : raw → validation A) l ds :
  Forall2 (λ x d, c x = Valid d) l ds → ∀ i, items_from c i l = Valid ds.
Proof.
  induction 1 as [|x d l ds Hx _ IH]; intros i; cbn [items_from];
    [reflexivity|].
  by rewrite Hx, IH.
Qed.

Lemma target_days_field_refused m l x :
  m !! "target_days"%string = Some (PyList l) →
  x ∈ l → refused_day x →
  ∃ e, raises (HabitInput.target_days_field m) e
       ∧ error_field e = Some (Key "target_days").
Proof.
  intros Hm Hx Hbad. rewrite (target_days_field_list _ _ Hm).
  pose proof (informative_items_from int_type l
                (λ v, informative_int_type v) 0) as Hinf.
  destruct (items_from int_type 0 l) as [ds|errs] eqn:Hitems.
  - apply items_from_valid in Hitems.
    apply list_elem_of_lookup in Hx as [i Hi].
    destruct (Forall2_lookup_l _ _ _ _ _ Hitems Hi) as (d & Hd & Hconv).
    unfold refused_day in Hbad. rewrite Hconv in Hbad.
    simpl. rewrite (validate_target_days_bad ds d); [|by eapply list_elem_of_lookup_2|done].
    exists ([Key "target_days"],
            ValueErr "target_days must contain integers between 0 and 6").
    split; [|reflexivity].
    eexists. split; [reflexivity|]. apply list_elem_of_here.
  - apply raises_invalid_under; [exact Hinf|reflexivity].
Qed.

Lemma target_days_field_converted m l ds :
  m !! "target_days"%string = Some (PyList l) →
  Forall2 (λ x d, int_type x = Valid d ∧ 0 ≤ d ≤ 6) l ds →
  HabitInput.target_days_field m = Valid (Some ds).
Proof.
  intros Hm Hall. rewrite (target_days_field_list _ _ Hm).
  rewrite (items_from_Forall2 int_type l ds).
  - simpl. rewrite validate_target_days_ok; [reflexivity|].
    clear Hm. induction Hall as [|x d l ds [_ Hd] _ IH]; by constructor.
  - eapply Forall2_impl; [exact Hall|]. by intros x d [? _].
Qed.

End TargetDays.

(** C3, as the specification states it, fails at the sequence [["3"]]: the
    string is not an integer, and the test of [validate_target_days] would
    refuse it, but the annotation [List[int]] converts it to [3] before the
    validator runs, and the record is built. *)
Lemma digit_string_day_is_accepted :
  isinstance_int (PyStr (py "3")) = false
  ∧ HabitInput.day_refused (PyStr (py "3")) = true
  ∧ ∀ E : External,
      @HabitInput.new E
         (<["target_days"%string := PyList [PyStr (py "3")]]> sample_habit)
        = Valid (with_target_days (Some [3]) sample_habit_base)
      ∧ @Habit.new E
          (<["target_days"%string := PyList [PyStr (py "3")]]> sample_habit)
        = Valid (with_base (with_target_days (Some [3]) sample_habit_base)
                           sample_habit_record).
Proof.
  split; [reflexivity|]. split; [reflexivity|].
  intros E. split; vm_compute; reflexivity.
Qed.

(** C3, amended.  When an element of the [target_days] sequence is refused
    by the conversion to [int], or is (or converts to) an integer [d] with
    [d < 0] or [d > 6], the construction of a [HabitInput] and of a [Habit]
    fails with an error located at [target_days].  The test in the loop
    of [validate_target_days] refuses whatever is not an [int], but it only
    sees converted values: an element that is not an integer and converts
    to one within 0..6 is accepted as that integer. *)
Theorem bad_target_days_are_refused `{External} (m : input) (l : list raw) :
  (∀ x, x ∈ l → refused_day x →
     (∃ e, raises (HabitInput.new (<["target_days"%string := PyList l]> m)) e
           ∧ error_field e = Some (Key "target_days"))
     ∧ (∃ e, raises (Habit.new (<["target_days"%string := PyList l]> m)) e
             ∧ error_field e = Some (Key "target_days")))
  ∧ (∀ d, d < 0 ∨ 6 < d → refused_day (PyInt d))
  ∧ (∀ x, isinstance_int x = false → HabitInput.day_refused x = true)
  ∧ (∀ ds h, Forall2 (λ x d, int_type x = Valid d ∧ 0 ≤ d ≤ 6) l ds →
       HabitInput.new m = Valid h →
       HabitInput.new (<["target_days"%string := PyList l]> m)
         = Valid (with_target_days (Some ds) h)).
Proof.
  split; [|split; [|split]].
  - intros x Hx Hbad.
    destruct (target_days_field_refused
                (<["target_days"%string := PyList l]> m) l x)
      as (e & He & Hloc); [apply lookup_insert_eq|done|done|].
    apply raises_target_days_field in He.
    split; exists e; (split; [|exact Hloc]); [exact He|].
    by apply Habit_raises_base.
  - intros d Hd. exact Hd.
  - intros x Hx. unfold HabitInput.day_refused. by rewrite Hx.
  - intros ds h Hall Hh. apply HabitInput_new_set_target_days; [exact Hh|].
    apply (target_days_field_converted _ l); [apply lookup_insert_eq|done].
Qed.

Lemma bad_target_days_are_refused_witness :
  ∃ e, raises (@Habit.new sample_external
                 (<["target_days"%string := PyList [PyInt 2; PyInt 7]]>
                    sample_habit)) e
       ∧ error_field e = Some (Key "target_days").
Proof.
  destruct (@bad_target_days_are_refused sample_external sample_habit
              [PyInt 2; PyInt 7]) as (Hbad & Hint & _ & _).
  apply (Hbad (PyInt 7)).
  - apply list_elem_of_further, list_elem_of_here.
  - apply Hint. lia.
Defined.

(** C4.  A sequence of integers, each within 0..6, given as [target_days]
    next to fields that are valid, yields a [HabitInput] and a [Habit]
    whose [target_days] is that sequence, element for element and in the
    same order. *)
Theorem days_in_range_are_kept `{External} (m : input) (ds : list Z) :
  Forall (λ d, 0 ≤ d ≤ 6) ds →
  (∀ h, HabitInput.new m = Valid h →
        HabitInput.new (<["target_days"%string := PyList (PyInt <$> ds)]> m)
          = Valid (with_target_days (Some ds) h))
  ∧ (∀ h, Habit.new m = Valid h →
          ∃ h', Habit.new (<["target_days"%string := PyList (PyInt <$> ds)]> m)
                  = Valid h'
                ∧ Habit.target_days h' = Some ds
                ∧ h' = with_base (with_target_days (Some ds) (Habit.base h)) h).
Proof.
  intros Hall.
  assert (∀ h, HabitInput.new m = Valid h →
            HabitInput.new (<["target_days"%string := PyList (PyInt <$> ds)]> m)
              = Valid (with_target_days (Some ds) h)) as Hin.
  { intros h Hh. apply HabitInput_new_set_target_days; [exact Hh|].
    apply target_days_field_ints; [apply lookup_insert_eq|exact Hall]. }
  split; [exact Hin|].
  intros h Hh. eexists. split; [|split; [|reflexivity]]; [|reflexivity].
  apply Habit_new_set_base; [|exact Hh|].
  - inherited_field.
  - apply Hin. by apply Habit_new_valid in Hh as [? _].
Qed.

Lemma days_in_range_are_kept_witness :
  ∃ h', @Habit.new sample_external
          (<["target_days"%string := PyList (PyInt <$> [6; 0; 3; 3])]>
             sample_habit) = Valid h'
        ∧ Habit.target_days h' = Some [6; 0; 3; 3]
        ∧ h' = with_base (with_target_days (Some [6; 0; 3; 3])
                            (Habit.base sample_habit_record))
                         sample_habit_record.
Proof.
  destruct (@days_in_range_are_kept sample_external sample_habit [6; 0; 3; 3])
    as [_ Hhabit].
  - repeat constructor; lia.
  - apply Hhabit. vm_compute. reflexivity.
Defined.

(* ===================================================================== *)
(** ** Defaults *)
(* ===================================================================== *)

(** C5, as the specification states it, fails for [status]: the input
    without [status] is valid, but with the empty string as [status] no
    record is built, so no record keeps the empty value. *)
Lemma empty_status_is_refused :
  (∀ E : External, @Habit.new E sample_habit = Valid sample_habit_record)
  ∧ (∀ E : External,
       @Habit.new E (<["status"%string := PyStr []]> sample_habit)
         = Invalid [([Key "status"], LiteralError)]).
Proof. split; intros E; vm_compute; reflexivity. Qed.

(** C5, amended.  In a record that was built, a field among [color],
    [icon], [target_days] and [status] that the input leaves out has its
    default: ["#3B82F6"], the star U+2B50, the empty sequence and
    [active].  Giving [color] or [icon] as the empty string, or
    [target_days] as the empty sequence, next to fields that are valid,
    builds a record that keeps the empty value.  Giving [status] as the
    empty string does not substitute the default either: the construction
    fails with an error located at [status]. *)
Theorem defaults_only_when_absent `{External} (m : input) :
  (∀ h, HabitInput.new m = Valid h →
     (m !! "color"%string = None → HabitInput.color h = Some (py "#3B82F6"))
     ∧ (m !! "icon"%string = None → HabitInput.icon h = Some [0x2B50%N])
     ∧ (m !! "target_days"%string = None → HabitInput.target_days h = Some []))
  ∧ (∀ h, Habit.new m = Valid h →
     (m !! "color"%string = None → Habit.color h = Some (py "#3B82F6"))
     ∧ (m !! "icon"%string = None → Habit.icon h = Some [0x2B50%N])
     ∧ (m !! "target_days"%string = None → Habit.target_days h = Some [])
     ∧ (m !! "status"%string = None → Habit.status h = active))
  ∧ (∀ h, HabitInput.new m = Valid h →
     HabitInput.new (<["color"%string := PyStr []]> m)
       = Valid (with_color (Some []) h)
     ∧ HabitInput.new (<["icon"%string := PyStr []]> m)
       = Valid (with_icon (Some []) h)
     ∧ HabitInput.new (<["target_days"%string := PyList []]> m)
       = Valid (with_target_days (Some []) h))
  ∧ (∀ h, Habit.new m = Valid h →
     Habit.new (<["color"%string := PyStr []]> m)
       = Valid (with_base (with_color (Some []) (Habit.base h)) h)
     ∧ Habit.new (<["icon"%string := PyStr []]> m)
       = Valid (with_base (with_icon (Some []) (Habit.base h)) h)
     ∧ Habit.new (<["target_days"%string := PyList []]> m)
       = Valid (with_base (with_target_days (Some []) (Habit.base h)) h))
  ∧ raises (Habit.new (<["status"%string := PyStr []]> m))
           ([Key "status"], LiteralError).
Proof.
  assert (∀ h, HabitInput.new m = Valid h →
     (m !! "color"%string = None → HabitInput.color h = Some (py "#3B82F6"))
     ∧ (m !! "icon"%string = None → HabitInput.icon h = Some [0x2B50%N])
     ∧ (m !! "target_days"%string = None → HabitInput.target_days h = Some []))
    as Habsent.
  { intros h Hh. apply HabitInput_new_valid in Hh as (_ & _ & _ & Ht & Hc & Hi).
    repeat split; intros Hm.
    - unfold HabitInput.color_field in Hc.
      rewrite (defaulted_missing _ _ _ _ Hm) in Hc. by injection Hc as <-.
    - unfold HabitInput.icon_field in Hi.
      rewrite (defaulted_missing _ _ _ _ Hm) in Hi. by injection Hi as <-.
    - unfold HabitInput.target_days_field in Ht.
      rewrite (defaulted_missing _ _ _ _ Hm) in Ht. by injection Ht as <-. }
  assert (∀ h, HabitInput.new m = Valid h →
     HabitInput.new (<["color"%string := PyStr []]> m)
       = Valid (with_color (Some []) h)
     ∧ HabitInput.new (<["icon"%string := PyStr []]> m)
       = Valid (with_icon (Some []) h)
     ∧ HabitInput.new (<["target_days"%string := PyList []]> m)
       = Valid (with_target_days (Some []) h)) as Hempty.
  { intros h Hh. repeat split.
    - apply HabitInput_new_set_color; [exact Hh|].
      by rewrite (color_field_str _ []) by apply lookup_insert_eq.
    - apply HabitInput_new_set_icon; [exact Hh|].
      apply icon_field_str, lookup_insert_eq.
    - apply HabitInput_new_set_target_days; [exact Hh|].
      apply (target_days_field_ints _ []); [apply lookup_insert_eq|constructor]. }
  split; [exact Habsent|]. split; [|split; [exact Hempty|split]].
  - intros h Hh. apply Habit_new_valid in Hh as (Hb & _ & _ & Hs & _).
    destruct (Habsent _ Hb) as (Hc & Hi & Ht).
    repeat split; try assumption.
    intros Hm. unfold Habit.status_field in Hs.
    rewrite (defaulted_missing _ _ _ _ Hm) in Hs. by injection Hs as <-.
  - intros h Hh.
    pose proof Hh as Hb. apply Habit_new_valid in Hb as (Hb & _).
    destruct (Hempty _ Hb) as (Hc & Hi & Ht).
    repeat split; (apply Habit_new_set_base;
                   [inherited_field|exact Hh|assumption]).
  - apply raises_errors_of. rewrite Habit_errors, !elem_of_app.
    right; right; right; left. unfold Habit.status_field.
    rewrite (defaulted_lookup _ _ _ _ (PyStr [])) by apply lookup_insert_eq.
    apply list_elem_of_here.
Qed.

Lemma defaults_only_when_absent_witness :
  (Habit.color sample_habit_record = Some (py "#3B82F6")
   ∧ Habit.icon sample_habit_record = Some [0x2B50%N]
   ∧ Habit.target_days sample_habit_record = Some []
   ∧ Habit.status sample_habit_record = active)
  ∧ @Habit.new sample_external (<["icon"%string := PyStr []]> sample_habit)
    = Valid (with_base (with_icon (Some []) (Habit.base sample_habit_record))
                       sample_habit_record).
Proof.
  destruct (@defaults_only_when_absent sample_external sample_habit)
    as (_ & Habsent & _ & Hempty & _).
  assert (@Habit.new sample_external sample_habit = Valid sample_habit_record)
    as Hnew by (vm_compute; reflexivity).
  split.
  - destruct (Habsent _ Hnew) as (Hc & Hi & Ht & Hs).
    split; [apply Hc|split; [apply Hi|split; [apply Ht|apply Hs]]];
      reflexivity.
  - by destruct (Hempty _ Hnew) as (_ & Hi & _).
Defined.

(* ===================================================================== *)
(** ** Registration *)
(* ===================================================================== *)



(* ===================================================================== *)
(** ** Statistics *)
(* ===================================================================== *)

(** C10.  [HabitStatistics] constrains none of its numbers: whatever the
    integers [c], [l], [t] (negative ones too) and the float [r] (also
    below 0, above 1, infinite or NaN), the record is built and holds
    them. *)
Theorem statistics_are_unconstrained `{External} (m : input) (hid : pystr)
    (c l t : Z) (r : spec_float) (d : option py_date) :
  HabitStatistics.new
    (<["habit_id"%string := PyStr hid]>
       (<["current_streak"%string := PyInt c]>
          (<["longest_streak"%string := PyInt l]>
             (<["total_completions"%string := PyInt t]>
                (<["completion_rate"%string := PyFloat r]>
                   (<["last_completed_date"%string :=
                        from_option PyDate PyNone d]> m))))))
  = Valid {| HabitStatistics.habit_id := hid;
             HabitStatistics.current_streak := c;
             HabitStatistics.longest_streak := l;
             HabitStatistics.total_completions := t;
             HabitStatistics.completion_rate := r;
             HabitStatistics.last_completed_date := d |}.
Proof.
  unfold HabitStatistics.new.
  rewrite (required_lookup "habit_id" _ _ (PyStr hid)),
    (required_lookup "current_streak" _ _ (PyInt c)),
    (required_lookup "longest_streak" _ _ (PyInt l)),
    (required_lookup "total_completions" _ _ (PyInt t)),
    (required_lookup "completion_rate" _ _ (PyFloat r)),
    (required_lookup "last_completed_date" _ _ (from_option PyDate PyNone d))
    by (repeat (rewrite lookup_insert_ne by done); apply lookup_insert_eq).
  by destruct d.
Qed.

(* ===================================================================== *)
(** ** Serialization *)
(* ===================================================================== *)

Section RoundTrip.
Context `{External}.

(** What [model_dump()] holds at each key. *)
Lemma Habit_dump_lookup h :
  Habit.dump h !! "name"%string = Some (PyStr (Habit.name h))
  ∧ Habit.dump h !! "description"%string
    = Some (HabitInput.opt_str (Habit.description h))
  ∧ Habit.dump h !! "frequency"%string
    = Some (PyStr (HabitFrequency_str (Habit.frequency h)))
  ∧ Habit.dump h !! "target_days"%string
    = Some (from_option (λ l, PyList (PyInt <$> l)) PyNone (Habit.target_days h))
  ∧ Habit.dump h !! "color"%string = Some (HabitInput.opt_str (Habit.color h))
  ∧ Habit.dump h !! "icon"%string = Some (HabitInput.opt_str (Habit.icon h))
  ∧ Habit.dump h !! "id"%string = Some (PyStr (Habit.id h))
  ∧ Habit.dump h !! "user_id"%string = Some (PyStr (Habit.user_id h))
  ∧ Habit.dump h !! "status"%string
    = Some (PyStr (HabitStatus_str (Habit.status h)))
  ∧ Habit.dump h !! "created_at"%string = Some (PyDateTime (Habit.created_at h))
  ∧ Habit.dump h !! "updated_at"%string = Some (PyDateTime (Habit.updated_at h)).
Proof. repeat split. Qed.

(** A validated [HabitInput] part is accepted again from the dump. *)
Lemma HabitInput_new_dump h :
  habit_invariant (Habit.base h) →
  HabitInput.new (Habit.dump h) = Valid (Habit.base h).
Proof.
  intros [Hname Hdesc Hdays Hcolor].
  destruct (Habit_dump_lookup h)
    as (Ln & Ld & Lf & Lt & Lc & Li & _).
  apply HabitInput_new_valid. repeat split.
  - unfold HabitInput.name_field. rewrite (required_lookup _ _ _ _ Ln).
    unfold str_type, Habit.name. simpl.
    destruct (length _ <? 1)%nat eqn:H1; [apply Nat.ltb_lt in H1; lia|].
    destruct (100 <? length _)%nat eqn:H2; [apply Nat.ltb_lt in H2; lia|].
    reflexivity.
  - unfold HabitInput.description_field.
    rewrite (defaulted_lookup _ _ _ _ _ Ld). unfold Habit.description.
    destruct (HabitInput.description (Habit.base h)) as [d|] eqn:Hd;
      [|reflexivity].
    specialize (Hdesc d eq_refl). unfold str_type. simpl.
    destruct (500 <? length d)%nat eqn:H2; [apply Nat.ltb_lt in H2; lia|].
    reflexivity.
  - unfold HabitInput.frequency_field. rewrite (required_lookup _ _ _ _ Lf).
    unfold Habit.frequency.
    by destruct (HabitInput.frequency (Habit.base h)).
  - unfold Habit.target_days in Lt.
    destruct (HabitInput.target_days (Habit.base h)) as [l|] eqn:Hl.
    + apply target_days_field_ints; [exact Lt|]. by apply Hdays.
    + unfold HabitInput.target_days_field.
      by rewrite (defaulted_lookup _ _ _ _ _ Lt).
  - unfold Habit.color in Lc.
    destruct (HabitInput.color (Habit.base h)) as [c|] eqn:Hc.
    + rewrite (color_field_str _ c Lc).
      destruct (Hcolor c eq_refl) as [-> | Hmatch]; [reflexivity|].
      by rewrite validate_color_match.
    + unfold HabitInput.color_field.
      by rewrite (defaulted_lookup _ _ _ _ _ Lc).
  - unfold Habit.icon in Li.
    destruct (HabitInput.icon (Habit.base h)) as [i|] eqn:Hi.
    + by apply icon_field_str.
    + unfold HabitInput.icon_field.
      by rewrite (defaulted_lookup _ _ _ _ _ Li).
Qed.

End RoundTrip.

(** C7.  Dumping a [Habit] that was built to its field mapping and
    building a [Habit] from that mapping succeeds and gives the same
    record, field for field. *)
Theorem habit_round_trip `{External} (m : input) (h : Habit.t) :
  Habit.new m = Valid h → Habit.new (Habit.dump h) = Valid h.
Proof.
  intros Hh. apply Habit_new_valid in Hh as (Hb & _).
  apply HabitInput_new_invariant in Hb.
  destruct (Habit_dump_lookup h)
    as (_ & _ & _ & _ & _ & _ & Lid & Lu & Ls & Lc & Lup).
  apply Habit_new_valid. split; [by apply HabitInput_new_dump|].
  rewrite (required_lookup _ _ _ _ Lid), (required_lookup _ _ _ _ Lu),
    (required_lookup _ _ _ _ Lc), (required_lookup _ _ _ _ Lup).
  unfold Habit.status_field. rewrite (defaulted_lookup _ _ _ _ _ Ls).
  repeat split. by destruct (Habit.status h).
Qed.

Lemma habit_round_trip_witness :
  @Habit.new sample_external (Habit.dump sample_habit_record)
  = Valid sample_habit_record.
Proof.
  apply (@habit_round_trip sample_external sample_habit sample_habit_record).
  vm_compute. reflexivity.
Defined.

(* ===================================================================== *)
(** ** All or nothing *)
(* ===================================================================== *)

Section AllOrNothing.
Context `{External}.





End AllOrNothing.


(* ===================================================================== *)
(** ** Determinism *)
(* ===================================================================== *)




(* ===================================================================== *)
(** ** One field at a time *)
(* ===================================================================== *)

Section OneField.
Context `{External}.


Lemma HabitInput_new_description m h v :
  HabitInput.new m = Valid h →
  HabitInput.new (<["description"%string := v]> m)
  = vmap (λ d, with_description d h)
         (HabitInput.description_field (<["description"%string := v]> m)).
Proof.
  intros Hh. apply HabitInput_new_valid in Hh as (Hn & _ & Hf & Ht & Hc & Hi).
  unfold HabitInput.new.
  unfold HabitInput.name_field, HabitInput.frequency_field,
    HabitInput.target_days_field, HabitInput.color_field,
    HabitInput.icon_field in *.
  rewrite !required_insert_ne, !defaulted_insert_ne by done.
  rewrite Hn, Hf, Ht, Hc, Hi.
  by destruct (HabitInput.description_field _).
Qed.

Lemma HabitInput_new_frequency m h v :
  HabitInput.new m = Valid h →
  HabitInput.new (<["frequency"%string := v]> m)
  = vmap (λ f, with_frequency f h)
         (HabitInput.frequency_field (<["frequency"%string := v]> m)).
Proof.
  intros Hh. apply HabitInput_new_valid in Hh as (Hn & Hd & _ & Ht & Hc & Hi).
  unfold HabitInput.new.
  unfold HabitInput.name_field, HabitInput.description_field,
    HabitInput.target_days_field, HabitInput.color_field,
    HabitInput.icon_field in *.
  rewrite !required_insert_ne, !defaulted_insert_ne by done.
  rewrite Hn, Hd, Ht, Hc, Hi.
  by destruct (HabitInput.frequency_field _).
Qed.

Lemma HabitInput_new_target_days m h v :
  HabitInput.new m = Valid h →
  HabitInput.new (<["target_days"%string := v]> m)
  = vmap (λ d, with_target_days d h)
         (HabitInput.target_days_field (<["target_days"%string := v]> m)).
Proof.
  intros Hh. apply HabitInput_new_valid in Hh as (Hn & Hd & Hf & _ & Hc & Hi).
  unfold HabitInput.new.
  unfold HabitInput.name_field, HabitInput.description_field,
    HabitInput.frequency_field, HabitInput.color_field,
    HabitInput.icon_field in *.
  rewrite !required_insert_ne, !defaulted_insert_ne by done.
  rewrite Hn, Hd, Hf, Hc, Hi.
  by destruct (HabitInput.target_days_field _).
Qed.

Lemma HabitInput_new_color m h v :
  HabitInput.new m = Valid h →
  HabitInput.new (<["color"%string := v]> m)
  = vmap (λ c, with_color c h)
         (HabitInput.color_field (<["color"%string := v]> m)).
Proof.
  intros Hh. apply HabitInput_new_valid in Hh as (Hn & Hd & Hf & Ht & _ & Hi).
  unfold HabitInput.new.
  unfold HabitInput.name_field, HabitInput.description_field,
    HabitInput.frequency_field, HabitInput.target_days_field,
    HabitInput.icon_field in *.
  rewrite !required_insert_ne, !defaulted_insert_ne by done.
  rewrite Hn, Hd, Hf, Ht, Hi.
  by destruct (HabitInput.color_field _).
Qed.

Lemma HabitInput_new_icon m h v :
  HabitInput.new m = Valid h →
  HabitInput.new (<["icon"%string := v]> m)
  = vmap (λ i, with_icon i h)
         (HabitInput.icon_field (<["icon"%string := v]> m)).
Proof.
  intros Hh. apply HabitInput_new_valid in Hh as (Hn & Hd & Hf & Ht & Hc & _).
  unfold HabitInput.new.
  unfold HabitInput.name_field, HabitInput.description_field,
    HabitInput.frequency_field, HabitInput.target_days_field,
    HabitInput.color_field in *.
  rewrite !required_insert_ne, !defaulted_insert_ne by done.
  rewrite Hn, Hd, Hf, Ht, Hc.
  by destruct (HabitInput.icon_field _).
Qed.

Lemma accepted_color_spec s :
  accepted_color s ↔ s = [] ∨ re_match hex_color_re s = true.
Proof. unfold accepted_color. rewrite hex_color_re_spec. tauto. Qed.

End OneField.

(** X1.  Next to fields that are valid, a string given as [color] is
    accepted exactly when it is empty, or [#] and six hexadecimal digits, or
    such a string followed by one newline (the [$] of the pattern matches
    before a final newline); it is then stored as given.  Any other string
    leaves the single error of [validate_color]. *)
Theorem accepted_colors `{External} (m : input) (h : HabitInput.t) (s : pystr) :
  HabitInput.new m = Valid h →
  (accepted_color s →
     HabitInput.new (<["color"%string := PyStr s]> m)
       = Valid (with_color (Some s) h))
  ∧ (¬ accepted_color s →
       HabitInput.new (<["color"%string := PyStr s]> m)
         = Invalid [([Key "color"],
                     ValueErr "Color must be a valid hex color code")]).
Proof.
  intros Hh. rewrite (HabitInput_new_color m h _ Hh).
  rewrite (color_field_str _ s) by apply lookup_insert_eq.
  rewrite accepted_color_spec. split.
  - intros [-> | Hs]; [reflexivity|]. by rewrite validate_color_match.
  - intros Hno. rewrite validate_color_bad; [reflexivity| |].
    + intros ->. apply Hno. by left.
    + apply not_true_is_false. intros Hs. apply Hno. by right.
Qed.

Lemma accepted_colors_witness :
  @HabitInput.new sample_external
     (<["color"%string := PyStr (py "#00ff7F" ++ [10%N])]> sample_habit)
  = Valid (with_color (Some (py "#00ff7F" ++ [10%N])) sample_habit_base).
Proof.
  destruct (@accepted_colors sample_external sample_habit sample_habit_base
              (py "#00ff7F" ++ [10%N])) as [Hok _].
  - vm_compute. reflexivity.
  - apply Hok. right. right. exists (py "#00ff7F"). split; [|reflexivity].
    exists (py "00ff7F"). split; [reflexivity|]. split; [reflexivity|].
    repeat constructor.
Defined.

(** X2.  [None] given explicitly for [description], [target_days], [color]
    or [icon], next to fields that are valid, is accepted and kept: the
    default is not substituted and the validators let [None] through. *)
Theorem explicit_none_is_kept `{External} (m : input) (h : HabitInput.t) :
  HabitInput.new m = Valid h →
  HabitInput.new (<["description"%string := PyNone]> m)
    = Valid (with_description None h)
  ∧ HabitInput.new (<["target_days"%string := PyNone]> m)
    = Valid (with_target_days None h)
  ∧ HabitInput.new (<["color"%string := PyNone]> m)
    = Valid (with_color None h)
  ∧ HabitInput.new (<["icon"%string := PyNone]> m)
    = Valid (with_icon None h).
Proof.
  intros Hh.
  rewrite (HabitInput_new_description m h _ Hh),
    (HabitInput_new_target_days m h _ Hh), (HabitInput_new_color m h _ Hh),
    (HabitInput_new_icon m h _ Hh).
  unfold HabitInput.description_field, HabitInput.target_days_field,
    HabitInput.color_field, HabitInput.icon_field.
  rewrite !(defaulted_lookup _ _ _ _ PyNone) by apply lookup_insert_eq.
  by repeat split.
Qed.

Lemma explicit_none_is_kept_witness :
  @HabitInput.new sample_external (<["color"%string := PyNone]> sample_habit)
  = Valid (with_color None sample_habit_base).
Proof.
  destruct (@explicit_none_is_kept sample_external sample_habit
              sample_habit_base) as (_ & _ & Hc & _).
  - vm_compute. reflexivity.
  - exact Hc.
Defined.





(** X5.  Next to fields that are valid, a string given as [frequency] is
    accepted exactly when it is ['daily'], ['weekly'] or ['custom'], and the
    record holds the literal given; any other string leaves the single
    error [literal_error] located at [frequency]. *)
Theorem frequency_is_a_literal `{External} (m : input) (h : HabitInput.t)
    (s : pystr) :
  HabitInput.new m = Valid h →
  (∀ f, s = HabitFrequency_str f →
        HabitInput.new (<["frequency"%string := PyStr s]> m)
          = Valid (with_frequency f h))
  ∧ ((∀ f, s ≠ HabitFrequency_str f) →
     HabitInput.new (<["frequency"%string := PyStr s]> m)
       = Invalid [([Key "frequency"], LiteralError)]).
Proof.
  intros Hh. rewrite (HabitInput_new_frequency m h _ Hh).
  unfold HabitInput.frequency_field.
  rewrite (required_lookup _ _ _ (PyStr s)) by apply lookup_insert_eq.
  split.
  - intros f ->. by destruct f.
  - intros Hno. unfold literal_type, HabitFrequency_values.
    cbn [list_find fst]. rewrite !bool_decide_eq_false_2; [reflexivity|..].
    + intros Hs. by apply (Hno custom).
    + intros Hs. by apply (Hno weekly).
    + intros Hs. by apply (Hno daily).
Qed.

Lemma frequency_is_a_literal_witness :
  @HabitInput.new sample_external
     (<["frequency"%string := PyStr (py "weekly")]> sample_habit)
  = Valid (with_frequency weekly sample_habit_base).
Proof.
  destruct (@frequency_is_a_literal sample_external sample_habit
              sample_habit_base (py "weekly")) as (Hok & _).
  - vm_compute. reflexivity.
  - by apply Hok.
Defined.

Section DayErrors.
Context `{External}.

Lemma int_type_invalid x e : int_type x = Invalid e → e = [([], IntType)].
Proof.
  assert (∀ o : option Z, of_option IntType o = Invalid e → e = [([], IntType)])
    as Hopt by (intros [z|]; simpl; [discriminate|by intros [= <-]]).
  destruct x; simpl; try apply Hopt; try discriminate.
  destruct (decimal_literal s); [discriminate|apply Hopt].
Qed.

(** The errors of the items: one [int_type] error at the position of each
    item that is not converted. *)
Lemma items_from_int_errors l i e :
  e ∈ errors_of (items_from int_type i l) ↔
  ∃ j x, l !! j = Some x ∧ is_valid (int_type x) = false
         ∧ e = ([Idx (i + j)], IntType).
Proof.
  revert i. induction l as [|x l IH]; intros i; cbn [items_from].
  - simpl. split; [intros He; by apply elem_of_nil in He|].
    intros (j & y & Hj & _). by rewrite lookup_nil in Hj.
  - rewrite !errors_of_vap, elem_of_app, IH. simpl. split.
    + intros [He | (j & y & Hj & Hy & ->)].
      * destruct (int_type x) as [d|e0] eqn:Hx;
          [by apply elem_of_nil in He|].
        apply int_type_invalid in Hx as Hshape. subst e0. simpl in He.
        apply list_elem_of_singleton in He as ->.
        exists 0%nat, x. rewrite Hx, Nat.add_0_r. by repeat split.
      * exists (S j), y. repeat split; [exact Hj|exact Hy|].
        by rewrite Nat.add_succ_r.
    + intros ([|j] & y & Hj & Hy & ->).
      * left. simpl in Hj. injection Hj as <-.
        destruct (int_type x) as [d|e0] eqn:Hx; [discriminate|].
        apply int_type_invalid in Hx as Hshape. subst e0. simpl.
        rewrite Nat.add_0_r. apply list_elem_of_here.
      * right. exists j, y. repeat split; [exact Hj|exact Hy|].
        by rewrite Nat.add_succ_r.
Qed.

End DayErrors.

(** X6.  When every element of [target_days] is an integer and at least one
    is below 0 or above 6, the construction fails with one error located at
    [target_days], however many elements are out of range: the loop of
    [validate_target_days] raises at the first one. *)
Theorem out_of_range_days_one_error `{External} (m : input) (h : HabitInput.t)
    (ds : list Z) :
  HabitInput.new m = Valid h →
  Exists (λ d, d < 0 ∨ 6 < d) ds →
  HabitInput.new (<["target_days"%string := PyList (PyInt <$> ds)]> m)
  = Invalid [([Key "target_days"],
              ValueErr "target_days must contain integers between 0 and 6")].
Proof.
  intros Hh Hbad. apply Exists_exists in Hbad as (d & Hd & Hout).
  rewrite (HabitInput_new_target_days m h _ Hh).
  rewrite (target_days_field_list _ (PyInt <$> ds)) by apply lookup_insert_eq.
  rewrite items_from_ints. simpl.
  by rewrite (validate_target_days_bad ds d).
Qed.

Lemma out_of_range_days_one_error_witness :
  @HabitInput.new sample_external
     (<["target_days"%string := PyList (PyInt <$> [7; 1; -1; 8])]> sample_habit)
  = Invalid [([Key "target_days"],
              ValueErr "target_days must contain integers between 0 and 6")].
Proof.
  apply (@out_of_range_days_one_error sample_external sample_habit
           sample_habit_base [7; 1; -1; 8]).
  - vm_compute. reflexivity.
  - apply Exists_cons_hd. lia.
Defined.

(** X7.  When some element of [target_days] is not converted to an integer,
    the construction fails with exactly one [int_type] error for each such
    element, located at [target_days] and the position of the element;
    [validate_target_days] does not run, so an out-of-range integer in the
    same sequence is not reported. *)
Theorem unconverted_days_are_located `{External} (m : input)
    (h : HabitInput.t) (l : list raw) :
  HabitInput.new m = Valid h →
  Exists (λ x, is_valid (int_type x) = false) l →
  ∃ errs,
    HabitInput.new (<["target_days"%string := PyList l]> m) = Invalid errs
    ∧ ∀ e, e ∈ errs ↔
           ∃ j x, l !! j = Some x ∧ is_valid (int_type x) = false
                  ∧ e = ([Key "target_days"; Idx j], IntType).
Proof.
  intros Hh Hbad. rewrite (HabitInput_new_target_days m h _ Hh).
  rewrite (target_days_field_list _ l) by apply lookup_insert_eq.
  pose proof (items_from_int_errors l 0) as Herrs.
  destruct (items_from int_type 0 l) as [ds|errs] eqn:Hitems.
  - exfalso. apply Exists_exists in Hbad as (x & Hx & Hinv).
    apply list_elem_of_lookup in Hx as [j Hj].
    apply (elem_of_nil ([Idx (0 + j)], IntType)).
    apply Herrs. by exists j, x.
  - simpl in *. eexists. split; [reflexivity|].
    intros e. rewrite list_elem_of_fmap. split.
    + intros ([loc r] & -> & He). apply Herrs in He as (j & x & Hj & Hx & [= -> ->]).
      by exists j, x.
    + intros (j & x & Hj & Hx & ->). exists ([Idx j], IntType).
      split; [reflexivity|]. apply Herrs. by exists j, x.
Qed.

Lemma unconverted_days_are_located_witness :
  ∃ errs,
    @HabitInput.new sample_external
       (<["target_days"%string := PyList [PyInt 1; PyNone; PyInt 9]]>
          sample_habit) = Invalid errs
    ∧ ∀ e, e ∈ errs ↔
           ∃ j x, [PyInt 1; PyNone; PyInt 9] !! j = Some x
                  ∧ is_valid (@int_type sample_external x) = false
                  ∧ e = ([Key "target_days"; Idx j], IntType).
Proof.
  apply (@unconverted_days_are_located sample_external sample_habit
           sample_habit_base [PyInt 1; PyNone; PyInt 9]).
  - vm_compute. reflexivity.
  - apply Exists_cons_tl, Exists_cons_hd. reflexivity.
Defined.

(* ===================================================================== *)
(** ** Habit and its inherited part *)
(* ===================================================================== *)

Section HabitFrame.
Context `{External}.

(** A key that is not a field of [HabitInput] is not read by it. *)
Lemma HabitInput_new_insert_other m k v :
  k ∉ HabitInput.fields →
  HabitInput.new (<[k := v]> m) = HabitInput.new m.
Proof.
  intros Hk.
  assert (k ≠ "name" ∧ k ≠ "description" ∧ k ≠ "frequency"
          ∧ k ≠ "target_days" ∧ k ≠ "color" ∧ k ≠ "icon")%string
    as (? & ? & ? & ? & ? & ?).
  { repeat split; intros ->; apply Hk; inherited_field. }
  unfold HabitInput.new, HabitInput.name_field, HabitInput.description_field,
    HabitInput.frequency_field, HabitInput.target_days_field,
    HabitInput.color_field, HabitInput.icon_field.
  by rewrite !required_insert_ne, !defaulted_insert_ne by done.
Qed.

Lemma Habit_new_status m h v :
  Habit.new m = Valid h →
  Habit.new (<["status"%string := v]> m)
  = vmap (λ st, with_status st h)
         (Habit.status_field (<["status"%string := v]> m)).
Proof.
  intros Hh. apply Habit_new_valid in Hh as (Hb & Hid & Hu & _ & Hc & Hup).
  unfold Habit.new.
  rewrite HabitInput_new_insert_other
    by (unfold HabitInput.fields; rewrite !elem_of_cons, elem_of_nil;
        intros Hk; by repeat destruct Hk as [Hk|Hk]).
  rewrite !required_insert_ne by done.
  rewrite Hb, Hid, Hu, Hc, Hup.
  by destruct (Habit.status_field _).
Qed.

End HabitFrame.

(** X8.  A [Habit] cannot be built without [name], [frequency], [id],
    [user_id], [created_at] and [updated_at]: when one of these keys is
    absent, the construction fails with the error [missing] located at that
    key, whatever the other fields are. *)
Theorem required_fields_are_required `{External} (m : input) (k : string) :
  k ∈ habit_required → m !! k = None →
  raises (Habit.new m) ([Key k], Missing).
Proof.
  intros Hk Hm. apply raises_errors_of.
  rewrite Habit_errors, HabitInput_errors, !elem_of_app.
  unfold HabitInput.name_field, HabitInput.frequency_field, required.
  unfold habit_required in Hk.
  repeat (apply elem_of_cons in Hk as [-> | Hk];
          [rewrite Hm; cbn [errors_of]; rewrite list_elem_of_singleton;
           tauto|]).
  by apply elem_of_nil in Hk.
Qed.

Lemma required_fields_are_required_witness :
  raises (@Habit.new sample_external (delete "user_id"%string sample_habit))
         ([Key "user_id"], Missing).
Proof.
  apply (@required_fields_are_required sample_external).
  - unfold habit_required.
    repeat first [apply list_elem_of_here | apply list_elem_of_further].
  - reflexivity.
Defined.

(** X9.  A key that is not a field of the model is ignored: adding it to the
    input, with any value, changes neither the record nor the errors of a
    [HabitInput] or a [Habit]. *)
Theorem unknown_keys_are_ignored `{External} (m : input) (k : string)
    (v : raw) :
  (k ∉ HabitInput.fields →
     HabitInput.new (<[k := v]> m) = HabitInput.new m)
  ∧ (k ∉ habit_fields → Habit.new (<[k := v]> m) = Habit.new m).
Proof.
  split; [apply HabitInput_new_insert_other|].
  intros Hk. unfold habit_fields in Hk.
  rewrite elem_of_app in Hk.
  assert (k ≠ "id" ∧ k ≠ "user_id" ∧ k ≠ "status" ∧ k ≠ "created_at"
          ∧ k ≠ "updated_at")%string as (? & ? & ? & ? & ?).
  { repeat split; intros ->; apply Hk; right;
      repeat first [apply list_elem_of_here | apply list_elem_of_further]. }
  unfold Habit.new, Habit.status_field.
  rewrite HabitInput_new_insert_other by tauto.
  by rewrite !required_insert_ne, !defaulted_insert_ne by done.
Qed.

Lemma unknown_keys_are_ignored_witness :
  @Habit.new sample_external
     (<["streak"%string := PyInt 12]> sample_habit)
  = @Habit.new sample_external sample_habit.
Proof.
  destruct (@unknown_keys_are_ignored sample_external sample_habit
              "streak"%string (PyInt 12)) as [_ Hhabit].
  apply Hhabit. unfold habit_fields, HabitInput.fields. simpl.
  rewrite !elem_of_cons, elem_of_nil.
  intros Hk. by repeat destruct Hk as [Hk|Hk].
Defined.

Lemma vap_invalid_l {A B : Type} e (x : validation A) :
  @Invalid (A → B) e <*> x = Invalid (e ++ errors_of x).
Proof. destruct x; simpl; by rewrite ?app_nil_r. Qed.

(** X10.  [Habit] validates what [HabitInput] validates: the inherited part
    of a [Habit] that was built is the [HabitInput] built from the same
    input, and when [HabitInput] refuses the input, [Habit] refuses it too,
    with the errors of [HabitInput] first. *)
Theorem habit_extends_habit_input `{External} (m : input) :
  (∀ h, Habit.new m = Valid h → HabitInput.new m = Valid (Habit.base h))
  ∧ (∀ errs, HabitInput.new m = Invalid errs →
             ∃ rest, Habit.new m = Invalid (errs ++ rest)).
Proof.
  split.
  - intros h Hh. by apply Habit_new_valid in Hh as [? _].
  - intros errs Hin. unfold Habit.new. rewrite Hin.
    change (Valid Habit.Build_t <*> Invalid errs)
      with (@Invalid (pystr → pystr → HabitStatus → py_datetime → py_datetime
                      → Habit.t) errs).
    rewrite !vap_invalid_l, <- !app_assoc. by eexists.
Qed.

Lemma habit_extends_habit_input_witness :
  ∃ rest,
    @Habit.new sample_external (delete "name"%string sample_habit)
    = Invalid ([([Key "name"], Missing)] ++ rest).
Proof.
  destruct (@habit_extends_habit_input sample_external
              (delete "name"%string sample_habit)) as [_ Hbad].
  apply Hbad. vm_compute. reflexivity.
Defined.

(** X11.  Every [Habit] that was built has a name of 1 to 100 characters, a
    description of at most 500 characters if it has one, target days that
    all lie within 0..6, and a color that is [None], empty, or [#] and six
    hexadecimal digits with at most one newline after them. *)
Theorem habit_invariants `{External} (m : input) (h : Habit.t) :
  Habit.new m = Valid h →
  (1 ≤ length (Habit.name h) ≤ 100)%nat
  ∧ (∀ d, Habit.description h = Some d → (length d ≤ 500)%nat)
  ∧ (∀ l d, Habit.target_days h = Some l → d ∈ l → 0 ≤ d ≤ 6)
  ∧ (∀ c, Habit.color h = Some c → accepted_color c).
Proof.
  intros Hh. apply Habit_new_valid in Hh as [Hb _].
  destruct (HabitInput_new_invariant m _ Hb) as [Hn Hd Ht Hc].
  split; [exact Hn|]. split; [exact Hd|]. split.
  - intros l d Hl Hin. specialize (Ht l Hl).
    rewrite Forall_forall in Ht. by apply Ht.
  - intros c Hcol. apply accepted_color_spec. by apply Hc.
Qed.

Lemma habit_invariants_witness :
  (1 ≤ length (Habit.name sample_habit_record) ≤ 100)%nat
  ∧ (∀ d, Habit.description sample_habit_record = Some d → (length d ≤ 500)%nat)
  ∧ (∀ l d, Habit.target_days sample_habit_record = Some l → d ∈ l → 0 ≤ d ≤ 6)
  ∧ (∀ c, Habit.color sample_habit_record = Some c → accepted_color c).
Proof.
  apply (@habit_invariants sample_external sample_habit).
  vm_compute. reflexivity.
Defined.

(** X12.  Next to fields that are valid, a string given as [status] is
    accepted exactly when it is ['active'] or ['archived']; any other
    string leaves the single error [literal_error] located at [status]. *)
Theorem status_is_a_literal `{External} (m : input) (h : Habit.t) (s : pystr) :
  Habit.new m = Valid h →
  (∀ st, s = HabitStatus_str st →
         Habit.new (<["status"%string := PyStr s]> m)
           = Valid (with_status st h))
  ∧ ((∀ st, s ≠ HabitStatus_str st) →
     Habit.new (<["status"%string := PyStr s]> m)
       = Invalid [([Key "status"], LiteralError)]).
Proof.
  intros Hh. rewrite (Habit_new_status m h _ Hh).
  unfold Habit.status_field.
  rewrite (defaulted_lookup _ _ _ _ (PyStr s)) by apply lookup_insert_eq.
  split.
  - intros st ->. by destruct st.
  - intros Hno. unfold literal_type, HabitStatus_values.
    cbn [list_find fst]. rewrite !bool_decide_eq_false_2; [reflexivity|..].
    + intros Hs. by apply (Hno archived).
    + intros Hs. by apply (Hno active).
Qed.

Lemma status_is_a_literal_witness :
  @Habit.new sample_external
     (<["status"%string := PyStr (py "archived")]> sample_habit)
  = Valid (with_status archived sample_habit_record).
Proof.
  destruct (@status_is_a_literal sample_external sample_habit
              sample_habit_record (py "archived")) as (Hok & _).
  - vm_compute. reflexivity.
  - by apply Hok.
Defined.

(* ===================================================================== *)
(** ** The other models *)
(* ===================================================================== *)

Lemma raises_under {A : Type} i (x : validation A) l r :
  raises x (l, r) → raises (under i x) (i :: l, r).
Proof.
  intros (errs & -> & He). exists (prod_map (cons i) id <$> errs).
  split; [reflexivity|].
  apply list_elem_of_fmap. by exists (l, r).
Qed.

Lemma literal_status_valid v st :
  literal_type HabitStatus_values v = Valid st → v = PyStr (HabitStatus_str st).
Proof.
  destruct v; try discriminate. unfold literal_type, HabitStatus_values.
  cbn [list_find fst]. repeat case_bool_decide; simpl; try discriminate.
  all: intros [= <-]; by subst.
Qed.

(** X13.  The payload of a registration that is accepted is also accepted
    as a login, with the same address and password: [UserLogin] checks the
    address the same way and puts no bound on the password. *)
Theorem registration_is_a_login `{External} (m : input)
    (r : UserRegistration.t) :
  UserRegistration.new m = Valid r →
  UserLogin.new m
  = Valid {| UserLogin.email := UserRegistration.email r;
             UserLogin.password := UserRegistration.password r |}.
Proof.
  unfold UserRegistration.new, UserLogin.new. intros Hr.
  apply vap_valid_inv in Hr as (g & n & Hr & _ & ->).
  apply vap_valid_inv in Hr as (g' & p & Hr & Hp & ->).
  apply vap_valid_inv in Hr as (g'' & e & [= <-] & He & ->). simpl.
  rewrite He. unfold required in *.
  destruct (m !! "password"%string) as [[]|]; try discriminate.
  unfold str_type in *. simpl in *.
  destruct (length s <? 8)%nat; [discriminate|].
  by injection Hp as <-.
Qed.

Lemma registration_is_a_login_witness :
  @UserLogin.new sample_external (sample_registration (py "12345678"))
  = Valid {| UserLogin.email := py "ann@example.org";
             UserLogin.password := py "12345678" |}.
Proof.
  apply (@registration_is_a_login sample_external
           (sample_registration (py "12345678"))
           {| UserRegistration.email := py "ann@example.org";
              UserRegistration.password := py "12345678";
              UserRegistration.name := py "Ann" |}).
  vm_compute. reflexivity.
Defined.

(** X14.  An [AuthResponse] whose [user] is a mapping validates that mapping
    as a [User]: the response is built from the [User] that is built, and
    every error of the [User] is an error of the response, located under
    [user]. *)
Theorem auth_response_nests_user `{External} (m d : input) :
  m !! "user"%string = Some (PyDict d) →
  (∀ u t, User.new d = Valid u → m !! "token"%string = Some (PyStr t) →
          AuthResponse.new m
          = Valid {| AuthResponse.user := u; AuthResponse.token := t |})
  ∧ (∀ a, AuthResponse.new m = Valid a →
          User.new d = Valid (AuthResponse.user a))
  ∧ (∀ l r, raises (User.new d) (l, r) →
            raises (AuthResponse.new m) (Key "user" :: l, r)).
Proof.
  intros Hu. unfold AuthResponse.new.
  rewrite (required_lookup _ _ _ _ Hu). cbn [model_type].
  split; [|split].
  - intros u t Hd Ht. by rewrite Hd, (required_lookup _ _ _ _ Ht).
  - intros a Ha.
    apply vap_valid_inv in Ha as (g & t & Ha & _ & ->).
    apply vap_valid_inv in Ha as (g' & u & [= <-] & Hd & ->). simpl.
    by destruct (User.new d); [injection Hd as ->|].
  - intros l r Hd. by apply raises_vap_l, raises_vap_r, raises_under.
Qed.

Lemma auth_response_nests_user_witness :
  @AuthResponse.new sample_external sample_auth
  = Valid {| AuthResponse.user := sample_user_record;
             AuthResponse.token := py "t0" |}.
Proof.
  destruct (@auth_response_nests_user sample_external sample_auth sample_user)
    as (Hok & _).
  - reflexivity.
  - apply Hok; [vm_compute|]; reflexivity.
Defined.

(** X15.  [ListHabitsQuery] is built exactly when [status] is absent,
    [None], ['active'] or ['archived']; an absent or [None] status gives no
    filter, and a literal gives that filter. *)
Theorem list_habits_query_status (m : input) :
  (m !! "status"%string = None ∨ m !! "status"%string = Some PyNone →
     ListHabitsQuery.new m = Valid {| ListHabitsQuery.status := None |})
  ∧ (∀ st, m !! "status"%string = Some (PyStr (HabitStatus_str st)) →
       ListHabitsQuery.new m = Valid {| ListHabitsQuery.status := Some st |})
  ∧ (∀ q, ListHabitsQuery.new m = Valid q →
       (ListHabitsQuery.status q = None
        ∧ (m !! "status"%string = None ∨ m !! "status"%string = Some PyNone))
       ∨ ∃ st, ListHabitsQuery.status q = Some st
               ∧ m !! "status"%string = Some (PyStr (HabitStatus_str st))).
Proof.
  unfold ListHabitsQuery.new, defaulted. split; [|split].
  - by intros [-> | ->].
  - intros st ->. by destruct st.
  - intros q Hq.
    apply vap_valid_inv in Hq as (g & o & [= <-] & Ho & ->). simpl.
    destruct (m !! "status"%string) as [v|]; [|injection Ho as <-; left; tauto].
    destruct v as [| | | |s| | | |]; try (simpl in Ho; discriminate).
    + injection Ho as <-. left. tauto.
    + change (under (Key "status")
                (vmap Some (literal_type HabitStatus_values (PyStr s)))
              = Valid o) in Ho.
      destruct (literal_type HabitStatus_values (PyStr s)) as [st|] eqn:Hlit;
        [|discriminate].
      injection Ho as <-. right. exists st. split; [reflexivity|].
      by rewrite (literal_status_valid _ st Hlit).
Qed.

Lemma list_habits_query_status_witness :
  ListHabitsQuery.new (<["status"%string := PyStr (py "archived")]> ∅)
  = Valid {| ListHabitsQuery.status := Some archived |}.
Proof.
  destruct (list_habits_query_status
              (<["status"%string := PyStr (py "archived")]> ∅)) as (_ & Hlit & _).
  by apply Hlit.
Defined.

(** X16.  [ListCompletionsQuery] puts no order on its two dates: whatever
    [start_date] and [end_date] are, each a date or [None], the query is
    built and holds them, also when the start is after the end. *)
Theorem completions_query_is_unordered `{External} (m : input)
    (s e : option py_date) :
  ListCompletionsQuery.new
    (<["start_date"%string := from_option PyDate PyNone s]>
       (<["end_date"%string := from_option PyDate PyNone e]> m))
  = Valid {| ListCompletionsQuery.start_date := s;
             ListCompletionsQuery.end_date := e |}.
Proof.
  unfold ListCompletionsQuery.new.
  rewrite (defaulted_lookup "start_date" _ _ _ (from_option PyDate PyNone s)),
    (defaulted_lookup "end_date" _ _ _ (from_option PyDate PyNone e))
    by (repeat (rewrite lookup_insert_ne by done); apply lookup_insert_eq).
  by destruct s, e.
Qed.

(** X17.  A [Completion] payload that is accepted is also accepted as a
    [CompletionInput], with the same date and notes. *)
Theorem completion_is_a_completion_input `{External} (m : input)
    (c : Completion.t) :
  Completion.new m = Valid c →
  CompletionInput.new m
  = Valid {| CompletionInput.date := Completion.date c;
             CompletionInput.notes := Completion.notes c |}.
Proof.
  unfold Completion.new, CompletionInput.new. intros Hc.
  apply vap_valid_inv in Hc as (g1 & t & Hc & _ & ->).
  apply vap_valid_inv in Hc as (g2 & n & Hc & Hn & ->).
  apply vap_valid_inv in Hc as (g3 & d & Hc & Hd & ->).
  apply vap_valid_inv in Hc as (g4 & hid & Hc & _ & ->).
  apply vap_valid_inv in Hc as (g5 & i & [= <-] & _ & ->). simpl.
  rewrite Hd. unfold required in Hn. unfold defaulted.
  destruct (m !! "notes"%string) as [v|]; [|discriminate].
  by rewrite Hn.
Qed.

Lemma completion_is_a_completion_input_witness :
  @CompletionInput.new sample_external sample_completion
  = Valid {| CompletionInput.date := mk_date 2024 1 15;
             CompletionInput.notes := None |}.
Proof.
  apply (@completion_is_a_completion_input sample_external sample_completion
           {| Completion.id := py "c1";
              Completion.habit_id := py "h1";
              Completion.date := mk_date 2024 1 15;
              Completion.notes := None;
              Completion.created_at := sample_time |}).
  vm_compute. reflexivity.
Defined.

(* ===================================================================== *)
(** ** Dumps *)
(* ===================================================================== *)

(** X18.  The dump of a [Habit] that was built is accepted as a
    [HabitInput] and gives the inherited part of the habit: the five keys
    [Habit] adds are ignored. *)
Theorem habit_dump_is_a_habit_input `{External} (m : input) (h : Habit.t) :
  Habit.new m = Valid h →
  HabitInput.new (Habit.dump h) = Valid (Habit.base h).
Proof.
  intros Hh. apply Habit_new_valid in Hh as (Hb & _).
  by apply HabitInput_new_dump, (HabitInput_new_invariant m).
Qed.

Lemma habit_dump_is_a_habit_input_witness :
  @HabitInput.new sample_external (Habit.dump sample_habit_record)
  = Valid sample_habit_base.
Proof.
  apply (@habit_dump_is_a_habit_input sample_external sample_habit
           sample_habit_record).
  vm_compute. reflexivity.
Defined.

(** X19.  Dumping a [HabitInput] that was built and building a
    [HabitInput] from the dump gives the same record. *)
Theorem habit_input_round_trip `{External} (m : input) (b : HabitInput.t) :
  HabitInput.new m = Valid b →
  HabitInput.new (HabitInput.dump b) = Valid b.
Proof.
  intros Hb. apply HabitInput_new_invariant in Hb.
  set (h := {| Habit.base := b; Habit.id := []; Habit.user_id := [];
               Habit.status := active; Habit.created_at := sample_time;
               Habit.updated_at := sample_time |}).
  transitivity (HabitInput.new (Habit.dump h));
    [|exact (HabitInput_new_dump h Hb)].
  unfold HabitInput.new, HabitInput.name_field, HabitInput.description_field,
    HabitInput.frequency_field, HabitInput.target_days_field,
    HabitInput.color_field, HabitInput.icon_field.
  by rewrite !(required_ext _ _ (HabitInput.dump b) (Habit.dump h)),
    !(defaulted_ext _ _ _ (HabitInput.dump b) (Habit.dump h)).
Qed.

Lemma habit_input_round_trip_witness :
  @HabitInput.new sample_external (HabitInput.dump sample_habit_base)
  = Valid sample_habit_base.
Proof.
  apply (@habit_input_round_trip sample_external sample_habit
           sample_habit_base).
  vm_compute. reflexivity.
Defined.
